(** * Multi-camera testing distance range calculator

    A shallow embedding of [lens_to_chart_distance.py].  The script reads its
    inputs from Streamlit widgets, runs one block of closed-form arithmetic per
    camera and intersects the per-camera ranges.  The widgets are modelled as
    explicit records ([Environment], [CameraInput]); the arithmetic is modelled
    with Python's [float] idealised as the real numbers, so every rounding
    step of IEEE binary64 is exact here.  The script's variable names are kept
    as the names of the definitions that compute them.  Module [Binary64]
    replays two lines on the kernel's binary64 floats, to show where rounding
    departs from the exact model.

    Python raises where a real-number formula is merely undefined, so the
    arithmetic runs in a small error monad: [truediv] raises
    [ZeroDivisionError] on a zero divisor and [max]/[min] of an empty
    generator raise [ValueError]. *)

From Stdlib Require Import Reals Lra Lia ZArith List String Bool Permutation.
From Stdlib Require Floats.
Import ListNotations.

Local Open Scope R_scope.

(** ** Exceptions *)

Inductive PyError : Type :=
| ZeroDivisionError
| ValueError.

Inductive result (A : Type) : Type :=
| Ok (a : A)
| Raise (e : PyError).

Arguments Ok {A} a.
Arguments Raise {A} e.

Definition bind {A B : Type} (c : result A) (k : A -> result B) : result B :=
  match c with
  | Ok a => k a
  | Raise e => Raise e
  end.

Notation "x <- c ;; k" := (bind c (fun x => k))
  (at level 61, c at next level, right associativity).

Definition result_map {A B : Type} (f : A -> B) (c : result A) : result B :=
  x <- c ;; Ok (f x).

Fixpoint mapM {A B : Type} (f : A -> result B) (l : list A) : result (list B) :=
  match l with
  | [] => Ok []
  | a :: t => b <- f a ;; bs <- mapM f t ;; Ok (b :: bs)
  end.

(** ** The Python primitives the script uses *)

Module Py.

(** [if x] on a float: true unless [x == 0]. *)
Definition truthy (x : R) : bool :=
  if Req_dec_T x 0 then false else true.

(** [x / y]. *)
Definition truediv (x y : R) : result R :=
  if Req_dec_T y 0 then Raise ZeroDivisionError else Ok (x / y).

(** [min(a, b)]: the first argument is kept unless the second is smaller. *)
Definition min2 (a b : R) : R :=
  if Rlt_dec b a then b else a.

(** [max(iterable)]: the running maximum is replaced only by a strictly
    greater item; an empty iterable raises. *)
Fixpoint max_from (cur : R) (items : list R) : R :=
  match items with
  | [] => cur
  | x :: rest => max_from (if Rgt_dec x cur then x else cur) rest
  end.

Definition max (items : list R) : result R :=
  match items with
  | [] => Raise ValueError
  | x :: rest => Ok (max_from x rest)
  end.

(** [min(iterable)], symmetrically. *)
Fixpoint min_from (cur : R) (items : list R) : R :=
  match items with
  | [] => cur
  | x :: rest => min_from (if Rlt_dec x cur then x else cur) rest
  end.

Definition min (items : list R) : result R :=
  match items with
  | [] => Raise ValueError
  | x :: rest => Ok (min_from x rest)
  end.

(** [math.hypot], [math.degrees], [math.radians]; [math.atan] and
    [math.tan] are the library's [atan] and [tan]. *)
Definition hypot (x y : R) : R := sqrt (x * x + y * y).
Definition degrees (x : R) : R := x * (180 / PI).
Definition radians (x : R) : R := x * (PI / 180).

(** [float("inf")] reaches one variable only, so the values that may be
    infinite get a type of their own. *)
Inductive xfloat : Type :=
| Finite (r : R)
| Inf.

(** [min(a, b)] with a finite first argument: [b < a] is false for
    [b = inf]. *)
Definition min2x (a : R) (b : xfloat) : R :=
  match b with
  | Finite r => min2 a r
  | Inf => a
  end.

End Py.

(** ** Inputs *)

Inductive ChartOption : Type := A4 | Letter | Legal | A3 | Ledger.

Definition chart_width_mm_map (c : ChartOption) : R :=
  match c with
  | A4 => 210
  | Letter => 216
  | Legal => 216
  | A3 => 297
  | Ledger => 279
  end.

Record Environment : Type := {
  chart_option : ChartOption;
  wall_width_cm : R;
  max_room_dist_cm : R;
  min_chart_fraction : R
}.

Definition chart_width_cm (env : Environment) : R :=
  chart_width_mm_map (chart_option env) / 10.

Definition PIXELS_PER_CM : R := 55.

Inductive SensorMode : Type :=
| SensorWidthMM (sw : R)
| PixelSizeUM (ps : R).

Inductive LensMode : Type :=
| FocalLengthMM (fl : R)
| DiagonalFOVDeg (dfov : R).

Record CameraInput : Type := {
  name : string;
  h_pixels : Z;
  v_pixels : Z;
  sensor_mode : SensorMode;
  lens_mode : LensMode
}.

(** The minimum values the widgets enforce. *)
Definition valid_env (env : Environment) : Prop :=
  1 <= wall_width_cm env /\ 1 <= max_room_dist_cm env /\
  0 <= min_chart_fraction env <= 1.

Definition valid_sensor (s : SensorMode) : Prop :=
  match s with
  | SensorWidthMM sw => 0 <= sw
  | PixelSizeUM ps => 0 <= ps
  end.

Definition valid_lens (l : LensMode) : Prop :=
  match l with
  | FocalLengthMM fl => 0 <= fl
  | DiagonalFOVDeg dfov => 0 <= dfov
  end.

Definition valid_camera (cam : CameraInput) : Prop :=
  (1 <= h_pixels cam)%Z /\ (1 <= v_pixels cam)%Z /\
  valid_sensor (sensor_mode cam) /\ valid_lens (lens_mode cam).

(** ** Per-camera computation *)

Record Sensor : Type := {
  sensor_width_mm : R;
  pixel_size_um : R;
  sensor_height_mm : R;
  sensor_diag_mm : R
}.

(** Lines 65-76. *)
Definition sensor (h_pixels v_pixels : Z) (mode : SensorMode) : result Sensor :=
  wp <- match mode with
        | SensorWidthMM sw =>
            q <- Py.truediv sw (IZR h_pixels) ;;
            Ok (sw, q * 1000)
        | PixelSizeUM ps =>
            Ok ((IZR h_pixels * ps) / 1000, ps)
        end ;;
  let sensor_width_mm := fst wp in
  let pixel_size_um := snd wp in
  let sensor_height_mm := (IZR v_pixels * pixel_size_um) / 1000 in
  let sensor_diag_mm := Py.hypot sensor_width_mm sensor_height_mm in
  Ok {| sensor_width_mm := sensor_width_mm;
        pixel_size_um := pixel_size_um;
        sensor_height_mm := sensor_height_mm;
        sensor_diag_mm := sensor_diag_mm |}.

Record Lens : Type := {
  focal_length_mm : R;
  dfov_deg : R
}.

(** Lines 83-90. *)
Definition lens (sensor_diag_mm : R) (mode : LensMode) : result Lens :=
  match mode with
  | FocalLengthMM fl =>
      dfov <- (if Py.truthy fl
               then q <- Py.truediv (sensor_diag_mm / 2) fl ;;
                    Ok (Py.degrees (2 * atan q))
               else Ok 0) ;;
      Ok {| focal_length_mm := fl; dfov_deg := dfov |}
  | DiagonalFOVDeg dfov =>
      fl <- (if Py.truthy dfov
             then Py.truediv (sensor_diag_mm / 2) (tan (Py.radians (dfov / 2)))
             else Ok 0) ;;
      Ok {| focal_length_mm := fl; dfov_deg := dfov |}
  end.

(** Lines 93-94. *)
Definition hfov_min_cm (h_pixels : Z) : R := IZR h_pixels / PIXELS_PER_CM.
Definition hfov_min_mm (h_pixels : Z) : R := hfov_min_cm h_pixels * 10.

(** Line 95. *)
Definition mag_min (h_pixels : Z) (sensor_width_mm : R) : result R :=
  if Py.truthy (hfov_min_mm h_pixels)
  then Py.truediv sensor_width_mm (hfov_min_mm h_pixels)
  else Ok 0.

(** Line 96. *)
Definition min_dist_mm (h_pixels : Z) (sensor_width_mm focal_length_mm : R)
  : result R :=
  m <- mag_min h_pixels sensor_width_mm ;;
  if Py.truthy m
  then q <- Py.truediv focal_length_mm m ;; Ok (q + focal_length_mm)
  else Ok 0.

(** Line 99. *)
Definition hfov_max_chart_cm (env : Environment) : result Py.xfloat :=
  if Py.truthy (min_chart_fraction env)
  then q <- Py.truediv (chart_width_cm env) (min_chart_fraction env) ;;
       Ok (Py.Finite q)
  else Ok Py.Inf.

(** Lines 100-101. *)
Definition hfov_max_cm (env : Environment) : result R :=
  c <- hfov_max_chart_cm env ;; Ok (Py.min2x (wall_width_cm env) c).

Definition hfov_max_mm (env : Environment) : result R :=
  c <- hfov_max_cm env ;; Ok (c * 10).

(** Line 102. *)
Definition mag_max (env : Environment) (sensor_width_mm : R) : result R :=
  w <- hfov_max_mm env ;;
  if Py.truthy w then Py.truediv sensor_width_mm w else Ok 0.

(** Line 103: the far distance before the room cap. *)
Definition max_dist_uncapped_mm (env : Environment)
  (sensor_width_mm focal_length_mm : R) : result R :=
  m <- mag_max env sensor_width_mm ;;
  if Py.truthy m
  then q <- Py.truediv focal_length_mm m ;; Ok (q + focal_length_mm)
  else Ok 0.

(** Lines 103-104. *)
Definition max_dist_mm (env : Environment)
  (sensor_width_mm focal_length_mm : R) : result R :=
  d <- max_dist_uncapped_mm env sensor_width_mm focal_length_mm ;;
  Ok (Py.min2 d (max_room_dist_cm env * 10)).

Record CameraRange : Type := {
  cam_name : string;
  min_mm : R;
  max_mm : R
}.

(** The body of the loop, lines 56-106. *)
Definition camera_range (env : Environment) (cam : CameraInput)
  : result CameraRange :=
  s <- sensor (h_pixels cam) (v_pixels cam) (sensor_mode cam) ;;
  l <- lens (sensor_diag_mm s) (lens_mode cam) ;;
  lo <- min_dist_mm (h_pixels cam) (sensor_width_mm s) (focal_length_mm l) ;;
  hi <- max_dist_mm env (sensor_width_mm s) (focal_length_mm l) ;;
  Ok {| cam_name := name cam; min_mm := lo; max_mm := hi |}.

(** ** Intersection, lines 109-120 *)

Definition lower_mm (cameras : list CameraRange) : result R :=
  Py.max (map min_mm cameras).

Definition upper_mm (cameras : list CameraRange) : result R :=
  Py.min (map max_mm cameras).

Inductive Outcome : Type :=
| CommonRange (lower upper : R)
| NoOverlap.

Definition intersection (cameras : list CameraRange) : result Outcome :=
  lower <- lower_mm cameras ;;
  upper <- upper_mm cameras ;;
  Ok (if Rle_dec lower upper then CommonRange lower upper else NoOverlap).

(** The whole script: the ranges it lists and the outcome it reports. *)
Definition run (env : Environment) (inputs : list CameraInput)
  : result (list CameraRange * Outcome) :=
  cameras <- mapM (camera_range env) inputs ;;
  o <- intersection cameras ;;
  Ok (cameras, o).

(** ** The formulas as the specification words them

    Sections 4.2 and 4.3, written with the plain division of the reals and
    no error monad; fields are in centimetres and are brought to the
    millimetres of the sensor width before the magnification is taken. *)

Module Spec.

Definition threshold : R := 55.

Definition min_horizontal_field (h_pixels : Z) : R :=
  IZR h_pixels / threshold.

Definition near_magnification (h_pixels : Z) (sensor_width : R) : R :=
  sensor_width / (min_horizontal_field h_pixels * 10).

Definition min_distance (h_pixels : Z) (sensor_width focal_length : R) : R :=
  let magnification := near_magnification h_pixels sensor_width in
  if Req_dec_T magnification 0
  then 0
  else focal_length / magnification + focal_length.

Definition max_field_from_chart (env : Environment) : Py.xfloat :=
  if Req_dec_T (min_chart_fraction env) 0
  then Py.Inf
  else Py.Finite (chart_width_cm env / min_chart_fraction env).

Definition max_field (env : Environment) : R :=
  match max_field_from_chart env with
  | Py.Inf => wall_width_cm env
  | Py.Finite c => Rmin (wall_width_cm env) c
  end.

Definition far_magnification (env : Environment) (sensor_width : R) : R :=
  sensor_width / (max_field env * 10).

Definition max_distance (env : Environment) (sensor_width focal_length : R) : R :=
  let magnification := far_magnification env sensor_width in
  Rmin (focal_length / magnification + focal_length)
       (max_room_dist_cm env * 10).

End Spec.

(** A value shown with two decimals reads [shown] when it lies within half
    a unit of the last place. *)
Definition shown_as_2dp (x shown : R) : Prop :=
  Rabs (x - shown) <= 0.005.

(** "Physically sane" inputs: the widgets' minimums hold, and the sensor
    width and the focal length the camera ends up with are positive. *)
Definition physically_sane (env : Environment) (cam : CameraInput)
  (s : Sensor) (l : Lens) : Prop :=
  valid_env env /\
  (1 <= h_pixels cam)%Z /\ (1 <= v_pixels cam)%Z /\
  sensor (h_pixels cam) (v_pixels cam) (sensor_mode cam) = Ok s /\
  lens (sensor_diag_mm s) (lens_mode cam) = Ok l /\
  0 < sensor_width_mm s /\ 0 < focal_length_mm l.

(** The same environment with another chart selected. *)
Definition set_chart_option (env : Environment) (c : ChartOption) : Environment :=
  {| chart_option := c;
     wall_width_cm := wall_width_cm env;
     max_room_dist_cm := max_room_dist_cm env;
     min_chart_fraction := min_chart_fraction env |}.

(** What a camera's near bound is computed from: no [Environment] here. *)
Definition near_bound (cam : CameraInput) : result R :=
  s <- sensor (h_pixels cam) (v_pixels cam) (sensor_mode cam) ;;
  l <- lens (sensor_diag_mm s) (lens_mode cam) ;;
  min_dist_mm (h_pixels cam) (sensor_width_mm s) (focal_length_mm l).

(** ** The widgets' default values *)

Definition default_env : Environment :=
  {| chart_option := A4;
     wall_width_cm := 300;
     max_room_dist_cm := 200;
     min_chart_fraction := 0.1 |}.

Definition default_camera : CameraInput :=
  {| name := "Camera 1";
     h_pixels := 3848;
     v_pixels := 2160;
     sensor_mode := SensorWidthMM 7.696;
     lens_mode := FocalLengthMM 3 |}.

(** What the default camera is normalised to. *)
Definition default_sensor : Sensor :=
  {| sensor_width_mm := 7.696;
     pixel_size_um := 7.696 / 3848 * 1000;
     sensor_height_mm := 2160 * (7.696 / 3848 * 1000) / 1000;
     sensor_diag_mm := Py.hypot 7.696 (2160 * (7.696 / 3848 * 1000) / 1000) |}.

Definition default_lens : Lens :=
  {| focal_length_mm := 3;
     dfov_deg := Py.degrees (2 * atan (sensor_diag_mm default_sensor / 2 / 3)) |}.

(** The defaults with the chart required to fill the whole field of view. *)
Definition full_frame_chart_env : Environment :=
  {| chart_option := A4;
     wall_width_cm := 300;
     max_room_dist_cm := 200;
     min_chart_fraction := 1 |}.

(** The defaults in a room ten centimetres deep. *)
Definition shallow_room_env : Environment :=
  {| chart_option := A4;
     wall_width_cm := 300;
     max_room_dist_cm := 10;
     min_chart_fraction := 0.1 |}.

(** The default camera with its lens entered as a 270 degree field of view. *)
Definition wide_fov_camera : CameraInput :=
  {| name := "Camera 1";
     h_pixels := 3848;
     v_pixels := 2160;
     sensor_mode := SensorWidthMM 7.696;
     lens_mode := DiagonalFOVDeg 270 |}.

(** The division of line 89 is safe for this camera: its divisor, the
    tangent of the half angle, is not zero (or the angle is 0 and the
    division is skipped, or the lens is given by its focal length). *)
Definition tangent_nonzero (cam : CameraInput) : Prop :=
  match lens_mode cam with
  | FocalLengthMM _ => True
  | DiagonalFOVDeg dfov => dfov <> 0 -> tan (Py.radians (dfov / 2)) <> 0
  end.

(** Three ranges that overlap pairwise only in part (scenario C). *)
Definition scenario_c : list CameraRange :=
  [ {| cam_name := "Camera 1"; min_mm := 100; max_mm := 300 |};
    {| cam_name := "Camera 2"; min_mm := 200; max_mm := 400 |};
    {| cam_name := "Camera 3"; min_mm := 350; max_mm := 500 |} ].

(** ** Where rounding shows: lines 67, 71 and 89 in binary64

    Over the reals [dfov_deg / 2] is zero only when [dfov_deg] is; in
    binary64 the quotient of the smallest positive number rounds to zero.
    [math.radians] multiplies by the constant [pi / 180.0]; [math.tan] is
    the C library's and stays a parameter. *)

Module Binary64.

Import Floats.
Local Open Scope float_scope.

Definition truthy (x : float) : bool := negb (PrimFloat.eqb x 0).

Definition truediv (x y : float) : result float :=
  if PrimFloat.eqb y 0 then Raise ZeroDivisionError else Ok (x / y).

Definition pi : float := 0x1.921fb54442d18p+1.

Definition radians (x : float) : float := x * (pi / 180).

(** The smallest positive binary64 number, [5e-324]. *)
Definition min_positive : float := 0x1p-1074.

(** Lines 71 and 67: a pitch entered directly, and the pitch derived back
    from the width it gives. *)
Definition sensor_width_mm (h_pixels pixel_size_um : float) : float :=
  (h_pixels * pixel_size_um) / 1000.

Definition pixel_size_um (h_pixels sensor_width_mm : float) : result float :=
  q <- truediv sensor_width_mm h_pixels ;; Ok (q * 1000).

Section Lens.

Variable tan : float -> float.

Definition focal_length_mm (sensor_diag_mm dfov_deg : float) : result float :=
  if truthy dfov_deg
  then truediv (sensor_diag_mm / 2) (tan (radians (dfov_deg / 2)))
  else Ok 0.

End Lens.

End Binary64.

(** ** Specification vocabulary *)

Definition is_maximum (m : R) (l : list R) : Prop :=
  In m l /\ forall x, In x l -> x <= m.

Definition is_minimum (m : R) (l : list R) : Prop :=
  In m l /\ forall x, In x l -> m <= x.



(** The range of the default camera in the default environment. *)
Definition default_range : CameraRange :=
  {| cam_name := "Camera 1";
     min_mm := 3 / (7.696 / (3848 / 55 * 10)) + 3;
     max_mm := Rmin (3 / (7.696 / (Spec.max_field default_env * 10)) + 3)
                    (max_room_dist_cm default_env * 10) |}.

(** The second environment constrains the far bound no more than the
    first: wall and room at least as large, chart at least as wide, and no
    larger a share of the field asked for the chart. *)
Definition roomier (env1 env2 : Environment) : Prop :=
  wall_width_cm env1 <= wall_width_cm env2 /\
  max_room_dist_cm env1 <= max_room_dist_cm env2 /\
  chart_width_cm env1 <= chart_width_cm env2 /\
  min_chart_fraction env2 <= min_chart_fraction env1.

(** A camera entered by pixel pitch and focal length. *)
Definition pitch_camera (h v : Z) (ps fl : R) : CameraInput :=
  {| name := "Camera 1";
     h_pixels := h;
     v_pixels := v;
     sensor_mode := PixelSizeUM ps;
     lens_mode := FocalLengthMM fl |}.

(** A distance that suits a camera lies between its two bounds. *)
Definition within (d : R) (c : CameraRange) : Prop :=
  min_mm c <= d <= max_mm c.

(** ** Results, lines 113-120

    Every distance is divided by 10 on its way to the display; the
    formatting to one decimal that follows is left out. *)

Definition shown_cm (x_mm : R) : R := x_mm / 10.

Record ShownRange : Type := {
  shown_name : string;
  shown_min_cm : R;
  shown_max_cm : R
}.

(** Lines 114-115. *)
Definition results (cameras : list CameraRange) : list ShownRange :=
  map (fun cam => {| shown_name := cam_name cam;
                     shown_min_cm := shown_cm (min_mm cam);
                     shown_max_cm := shown_cm (max_mm cam) |}) cameras.

(** Lines 117-120: the message, with the two numbers of the success case. *)
Inductive Message : Type :=
| Success (lower_cm upper_cm : R)
| Error.

Definition message (o : Outcome) : Message :=
  match o with
  | CommonRange lower upper => Success (shown_cm lower) (shown_cm upper)
  | NoOverlap => Error
  end.

(** * Proofs *)

(** ** Python primitives *)

Lemma truthy_nonzero (x : R) : x <> 0 -> Py.truthy x = true.
Proof.
  intros Hx. unfold Py.truthy. destruct (Req_dec_T x 0); [contradiction | reflexivity].
Qed.

Lemma truthy_zero : Py.truthy 0 = false.
Proof.
  unfold Py.truthy. destruct (Req_dec_T 0 0); [reflexivity | congruence].
Qed.

Lemma truediv_nonzero (x y : R) : y <> 0 -> Py.truediv x y = Ok (x / y).
Proof.
  intros Hy. unfold Py.truediv. destruct (Req_dec_T y 0); [contradiction | reflexivity].
Qed.

Lemma truediv_zero (x : R) : Py.truediv x 0 = Raise ZeroDivisionError.
Proof.
  unfold Py.truediv. destruct (Req_dec_T 0 0); [reflexivity | congruence].
Qed.

Lemma min2_Rmin (a b : R) : Py.min2 a b = Rmin a b.
Proof.
  unfold Py.min2, Rmin. destruct (Rlt_dec b a), (Rle_dec a b); lra.
Qed.

Lemma max_from_spec (items : list R) :
  forall cur, is_maximum (Py.max_from cur items) (cur :: items).
Proof.
  induction items as [| x rest IH]; intros cur; simpl.
  - split; [now left | intros y [<- | []]; lra].
  - destruct (IH (if Rgt_dec x cur then x else cur)) as [Hin Hub].
    split.
    + destruct Hin as [Heq | Hin].
      * rewrite <- Heq. destruct (Rgt_dec x cur); [right; now left | now left].
      * right; now right.
    + intros y Hy.
      assert (Hcur : cur <= Py.max_from (if Rgt_dec x cur then x else cur) rest).
      { eapply Rle_trans; [| apply Hub; now left].
        destruct (Rgt_dec x cur); lra. }
      assert (Hx : x <= Py.max_from (if Rgt_dec x cur then x else cur) rest).
      { eapply Rle_trans; [| apply Hub; now left].
        destruct (Rgt_dec x cur); lra. }
      destruct Hy as [<- | [<- | Hy]]; auto.
      apply Hub; now right.
Qed.

Lemma min_from_spec (items : list R) :
  forall cur, is_minimum (Py.min_from cur items) (cur :: items).
Proof.
  induction items as [| x rest IH]; intros cur; simpl.
  - split; [now left | intros y [<- | []]; lra].
  - destruct (IH (if Rlt_dec x cur then x else cur)) as [Hin Hlb].
    split.
    + destruct Hin as [Heq | Hin].
      * rewrite <- Heq. destruct (Rlt_dec x cur); [right; now left | now left].
      * right; now right.
    + intros y Hy.
      assert (Hcur : Py.min_from (if Rlt_dec x cur then x else cur) rest <= cur).
      { eapply Rle_trans; [apply Hlb; now left |].
        destruct (Rlt_dec x cur); lra. }
      assert (Hx : Py.min_from (if Rlt_dec x cur then x else cur) rest <= x).
      { eapply Rle_trans; [apply Hlb; now left |].
        destruct (Rlt_dec x cur); lra. }
      destruct Hy as [<- | [<- | Hy]]; auto.
      apply Hlb; now right.
Qed.

Lemma max_nonempty (l : list R) :
  l <> [] -> exists m, Py.max l = Ok m /\ is_maximum m l.
Proof.
  destruct l as [| x rest]; [congruence | intros _].
  exists (Py.max_from x rest). split; [reflexivity | apply max_from_spec].
Qed.

Lemma min_nonempty (l : list R) :
  l <> [] -> exists m, Py.min l = Ok m /\ is_minimum m l.
Proof.
  destruct l as [| x rest]; [congruence | intros _].
  exists (Py.min_from x rest). split; [reflexivity | apply min_from_spec].
Qed.

(** ** The cross-camera reducer *)

Lemma intersection_of_bounds (cameras : list CameraRange) (lower upper : R) :
  lower_mm cameras = Ok lower ->
  upper_mm cameras = Ok upper ->
  (lower <= upper -> intersection cameras = Ok (CommonRange lower upper)) /\
  (upper < lower -> intersection cameras = Ok NoOverlap).
Proof.
  intros Hl Hu. unfold intersection. rewrite Hl, Hu. simpl.
  destruct (Rle_dec lower upper); split; intros; try reflexivity; lra.
Qed.

(** C1.  For a non-empty list of camera ranges the reducer does not raise;
    [lower_mm] is the maximum of the cameras' [min_mm], [upper_mm] is the
    minimum of their [max_mm]; the outcome is the common range
    [lower, upper] when [lower <= upper] and "no overlap" otherwise.  For a
    single camera the two bounds are that camera's own [min_mm] and
    [max_mm]. *)
Theorem intersection_max_of_mins_min_of_maxs (cameras : list CameraRange) :
  cameras <> [] ->
  exists lower upper,
    lower_mm cameras = Ok lower /\
    upper_mm cameras = Ok upper /\
    is_maximum lower (map min_mm cameras) /\
    is_minimum upper (map max_mm cameras) /\
    (lower <= upper -> intersection cameras = Ok (CommonRange lower upper)) /\
    (upper < lower -> intersection cameras = Ok NoOverlap) /\
    (forall c, cameras = [c] ->
       lower = min_mm c /\ upper = max_mm c /\
       (min_mm c <= max_mm c ->
        intersection cameras = Ok (CommonRange (min_mm c) (max_mm c)))).
Proof.
  intros Hne.
  assert (Hmin : map min_mm cameras <> []) by (destruct cameras; simpl; congruence).
  assert (Hmax : map max_mm cameras <> []) by (destruct cameras; simpl; congruence).
  destruct (max_nonempty _ Hmin) as (lower & Hl & Hlmax).
  destruct (min_nonempty _ Hmax) as (upper & Hu & Humin).
  exists lower, upper.
  destruct (intersection_of_bounds cameras lower upper Hl Hu) as [Hyes Hno].
  repeat split; try assumption; try apply Hlmax; try apply Humin.
  - subst cameras. unfold lower_mm in Hl. simpl in Hl. congruence.
  - subst cameras. unfold upper_mm in Hu. simpl in Hu. congruence.
  - intros Hle. subst cameras.
    unfold lower_mm in Hl. unfold upper_mm in Hu. simpl in Hl, Hu.
    injection Hl as <-. injection Hu as <-. now apply Hyes.
Qed.

Lemma intersection_max_of_mins_min_of_maxs_scenario_c :
  scenario_c <> [] /\
  exists lower upper,
    lower_mm scenario_c = Ok lower /\
    upper_mm scenario_c = Ok upper /\
    is_maximum lower (map min_mm scenario_c) /\
    is_minimum upper (map max_mm scenario_c) /\
    (lower <= upper -> intersection scenario_c = Ok (CommonRange lower upper)) /\
    (upper < lower -> intersection scenario_c = Ok NoOverlap) /\
    (forall c, scenario_c = [c] ->
       lower = min_mm c /\ upper = max_mm c /\
       (min_mm c <= max_mm c ->
        intersection scenario_c = Ok (CommonRange (min_mm c) (max_mm c)))).
Proof.
  split; [discriminate |].
  apply (intersection_max_of_mins_min_of_maxs scenario_c). discriminate.
Defined.

(** Scenario C: the three ranges have [max(min_i) = 350 > 300 = min(max_i)],
    and the script reports that no common range exists. *)
Lemma scenario_c_no_overlap :
  lower_mm scenario_c = Ok 350 /\
  upper_mm scenario_c = Ok 300 /\
  intersection scenario_c = Ok NoOverlap.
Proof.
  assert (Hl : lower_mm scenario_c = Ok 350).
  { unfold lower_mm, scenario_c. simpl.
    destruct (Rgt_dec 200 100); [| lra].
    destruct (Rgt_dec 350 200); [reflexivity | lra]. }
  assert (Hu : upper_mm scenario_c = Ok 300).
  { unfold upper_mm, scenario_c. simpl.
    destruct (Rlt_dec 400 300); [lra |].
    destruct (Rlt_dec 500 300); [lra | reflexivity]. }
  split; [exact Hl |]. split; [exact Hu |].
  apply (intersection_of_bounds scenario_c 350 300 Hl Hu). lra.
Qed.

(** ** The error monad *)

Lemma bind_Ok_inv {A B : Type} (c : result A) (k : A -> result B) (b : B) :
  bind c k = Ok b -> exists a, c = Ok a /\ k a = Ok b.
Proof.
  destruct c as [a | e]; simpl; intros H; [eauto | discriminate].
Qed.

(** ** Near distance *)

Lemma hfov_min_mm_pos (h : Z) : (1 <= h)%Z -> 0 < hfov_min_mm h.
Proof.
  intros Hh. apply IZR_le in Hh.
  unfold hfov_min_mm, hfov_min_cm, PIXELS_PER_CM. lra.
Qed.

Lemma mag_min_ok (h : Z) (sw : R) :
  (1 <= h)%Z -> mag_min h sw = Ok (sw / hfov_min_mm h).
Proof.
  intros Hh. pose proof (hfov_min_mm_pos h Hh) as Hpos.
  unfold mag_min.
  rewrite truthy_nonzero by lra. apply truediv_nonzero. lra.
Qed.

Lemma min_dist_mm_nonzero (h : Z) (sw f : R) :
  (1 <= h)%Z -> sw / hfov_min_mm h <> 0 ->
  min_dist_mm h sw f = Ok (f / (sw / hfov_min_mm h) + f).
Proof.
  intros Hh Hm. unfold min_dist_mm. rewrite mag_min_ok by assumption. simpl.
  rewrite truthy_nonzero by assumption.
  rewrite truediv_nonzero by assumption. reflexivity.
Qed.

Lemma min_dist_mm_zero (h : Z) (sw f : R) :
  (1 <= h)%Z -> sw / hfov_min_mm h = 0 -> min_dist_mm h sw f = Ok 0.
Proof.
  intros Hh Hm. unfold min_dist_mm. rewrite mag_min_ok by assumption. simpl.
  rewrite Hm, truthy_zero. reflexivity.
Qed.

Lemma div_pos_zero_iff (x d : R) : 0 < d -> (x / d = 0 <-> x = 0).
Proof.
  intros Hd. split; intros H.
  - apply (Rmult_eq_compat_r d) in H. unfold Rdiv in H.
    rewrite Rmult_assoc, Rinv_l, Rmult_1_r, Rmult_0_l in H by lra. exact H.
  - subst x. unfold Rdiv. apply Rmult_0_l.
Qed.

Lemma min_dist_mm_total (h : Z) (sw f : R) :
  (1 <= h)%Z -> exists d, min_dist_mm h sw f = Ok d.
Proof.
  intros Hh. destruct (Req_dec_T (sw / hfov_min_mm h) 0) as [Hz | Hnz].
  - exists 0. now apply min_dist_mm_zero.
  - eexists. now apply min_dist_mm_nonzero.
Qed.

(** ** Far distance *)

Lemma chart_width_cm_pos (env : Environment) : 0 < chart_width_cm env.
Proof.
  unfold chart_width_cm, chart_width_mm_map. destruct (chart_option env); lra.
Qed.

Lemma hfov_max_chart_cm_ok (env : Environment) :
  hfov_max_chart_cm env = Ok (Spec.max_field_from_chart env).
Proof.
  unfold hfov_max_chart_cm, Spec.max_field_from_chart, Py.truthy.
  destruct (Req_dec_T (min_chart_fraction env) 0) as [Hz | Hnz]; [reflexivity |].
  rewrite truediv_nonzero by assumption. reflexivity.
Qed.

Lemma hfov_max_cm_ok (env : Environment) :
  hfov_max_cm env = Ok (Spec.max_field env).
Proof.
  unfold hfov_max_cm. rewrite hfov_max_chart_cm_ok. simpl.
  unfold Spec.max_field. destruct (Spec.max_field_from_chart env); simpl;
    [rewrite min2_Rmin |]; reflexivity.
Qed.

Lemma max_field_pos (env : Environment) : valid_env env -> 0 < Spec.max_field env.
Proof.
  intros (Hw & _ & Hf0 & _). unfold Spec.max_field, Spec.max_field_from_chart.
  destruct (Req_dec_T (min_chart_fraction env) 0) as [Hz | Hnz]; [lra |].
  apply Rmin_glb_lt; [lra |].
  apply Rdiv_lt_0_compat; [apply chart_width_cm_pos | lra].
Qed.

Lemma max_field_unbounded_chart (env : Environment) :
  min_chart_fraction env = 0 -> Spec.max_field env = wall_width_cm env.
Proof.
  intros Hz. unfold Spec.max_field, Spec.max_field_from_chart.
  destruct (Req_dec_T (min_chart_fraction env) 0); [reflexivity | contradiction].
Qed.

Lemma hfov_max_mm_ok (env : Environment) :
  hfov_max_mm env = Ok (Spec.max_field env * 10).
Proof. unfold hfov_max_mm. rewrite hfov_max_cm_ok. reflexivity. Qed.

Lemma mag_max_ok (env : Environment) (sw : R) :
  valid_env env -> mag_max env sw = Ok (Spec.far_magnification env sw).
Proof.
  intros Hv. pose proof (max_field_pos env Hv) as Hpos.
  unfold mag_max. rewrite hfov_max_mm_ok. simpl.
  rewrite truthy_nonzero by lra. apply truediv_nonzero. lra.
Qed.

Lemma max_dist_uncapped_nonzero (env : Environment) (sw f : R) :
  valid_env env -> Spec.far_magnification env sw <> 0 ->
  max_dist_uncapped_mm env sw f = Ok (f / Spec.far_magnification env sw + f).
Proof.
  intros Hv Hm. unfold max_dist_uncapped_mm. rewrite mag_max_ok by assumption.
  simpl. rewrite truthy_nonzero by assumption.
  rewrite truediv_nonzero by assumption. reflexivity.
Qed.

Lemma max_dist_mm_cap (env : Environment) (sw f d : R) :
  max_dist_uncapped_mm env sw f = Ok d ->
  max_dist_mm env sw f = Ok (Rmin d (max_room_dist_cm env * 10)).
Proof.
  intros H. unfold max_dist_mm. rewrite H. simpl. now rewrite min2_Rmin.
Qed.

Lemma far_magnification_zero_iff (env : Environment) (sw : R) :
  valid_env env -> (Spec.far_magnification env sw = 0 <-> sw = 0).
Proof.
  intros Hv. pose proof (max_field_pos env Hv).
  unfold Spec.far_magnification. apply div_pos_zero_iff. lra.
Qed.

(** The far distance never raises, whatever the environment holds: each of
    its three divisions sits behind a test of its own divisor. *)
Lemma max_dist_mm_total (env : Environment) (sw f : R) :
  exists d, max_dist_mm env sw f = Ok d.
Proof.
  unfold max_dist_mm, max_dist_uncapped_mm, mag_max.
  rewrite hfov_max_mm_ok. simpl. unfold Py.truthy, Py.truediv.
  destruct (Req_dec_T (Spec.max_field env * 10) 0); simpl.
  - destruct (Req_dec_T 0 0); [| congruence]. simpl. eauto.
  - destruct (Req_dec_T (sw / (Spec.max_field env * 10)) 0); simpl; eauto.
Qed.

(** ** Sensor and lens normalisation *)

Lemma IZR_pos_nonzero (h : Z) : (1 <= h)%Z -> IZR h <> 0.
Proof. intros Hh. apply IZR_le in Hh. lra. Qed.

Lemma sensor_width_mode (h v : Z) (sw : R) :
  (1 <= h)%Z ->
  sensor h v (SensorWidthMM sw) =
  Ok {| sensor_width_mm := sw;
        pixel_size_um := sw / IZR h * 1000;
        sensor_height_mm := IZR v * (sw / IZR h * 1000) / 1000;
        sensor_diag_mm := Py.hypot sw (IZR v * (sw / IZR h * 1000) / 1000) |}.
Proof.
  intros Hh. unfold sensor.
  rewrite truediv_nonzero by now apply IZR_pos_nonzero. reflexivity.
Qed.

Lemma sensor_pixel_mode (h v : Z) (ps : R) :
  sensor h v (PixelSizeUM ps) =
  Ok {| sensor_width_mm := IZR h * ps / 1000;
        pixel_size_um := ps;
        sensor_height_mm := IZR v * ps / 1000;
        sensor_diag_mm := Py.hypot (IZR h * ps / 1000) (IZR v * ps / 1000) |}.
Proof. reflexivity. Qed.

Lemma sensor_total (h v : Z) (mode : SensorMode) :
  (1 <= h)%Z -> exists s, sensor h v mode = Ok s.
Proof.
  intros Hh. destruct mode as [sw | ps].
  - eexists. now apply sensor_width_mode.
  - eexists. apply sensor_pixel_mode.
Qed.

Lemma lens_focal_mode_nonzero (diag fl : R) :
  fl <> 0 ->
  lens diag (FocalLengthMM fl) =
  Ok {| focal_length_mm := fl;
        dfov_deg := Py.degrees (2 * atan (diag / 2 / fl)) |}.
Proof.
  intros Hfl. unfold lens. rewrite truthy_nonzero by assumption.
  rewrite truediv_nonzero by assumption. reflexivity.
Qed.

Lemma lens_focal_mode_zero (diag : R) :
  lens diag (FocalLengthMM 0) = Ok {| focal_length_mm := 0; dfov_deg := 0 |}.
Proof. unfold lens. rewrite truthy_zero. reflexivity. Qed.

Lemma lens_focal_mode_total (diag fl : R) :
  exists dfov,
    lens diag (FocalLengthMM fl) = Ok {| focal_length_mm := fl; dfov_deg := dfov |}.
Proof.
  destruct (Req_dec_T fl 0) as [-> | Hnz].
  - eexists. apply lens_focal_mode_zero.
  - eexists. now apply lens_focal_mode_nonzero.
Qed.

Lemma lens_fov_mode_zero (diag : R) :
  lens diag (DiagonalFOVDeg 0) = Ok {| focal_length_mm := 0; dfov_deg := 0 |}.
Proof. unfold lens. rewrite truthy_zero. reflexivity. Qed.

Lemma lens_fov_mode_nonzero (diag dfov : R) :
  dfov <> 0 -> tan (Py.radians (dfov / 2)) <> 0 ->
  lens diag (DiagonalFOVDeg dfov) =
  Ok {| focal_length_mm := diag / 2 / tan (Py.radians (dfov / 2));
        dfov_deg := dfov |}.
Proof.
  intros Hd Ht. unfold lens. rewrite truthy_nonzero by assumption.
  rewrite truediv_nonzero by assumption. reflexivity.
Qed.

Lemma lens_fov_mode_tan_zero (diag dfov : R) :
  dfov <> 0 -> tan (Py.radians (dfov / 2)) = 0 ->
  lens diag (DiagonalFOVDeg dfov) = Raise ZeroDivisionError.
Proof.
  intros Hd Ht. unfold lens. rewrite truthy_nonzero by assumption.
  rewrite Ht, truediv_zero. reflexivity.
Qed.

(** ** The loop body *)

Lemma camera_range_ok (env : Environment) (cam : CameraInput)
  (s : Sensor) (l : Lens) (lo hi : R) :
  sensor (h_pixels cam) (v_pixels cam) (sensor_mode cam) = Ok s ->
  lens (sensor_diag_mm s) (lens_mode cam) = Ok l ->
  min_dist_mm (h_pixels cam) (sensor_width_mm s) (focal_length_mm l) = Ok lo ->
  max_dist_mm env (sensor_width_mm s) (focal_length_mm l) = Ok hi ->
  camera_range env cam = Ok {| cam_name := name cam; min_mm := lo; max_mm := hi |}.
Proof.
  intros Hs Hl Hlo Hhi. unfold camera_range.
  rewrite Hs; simpl. rewrite Hl; simpl. rewrite Hlo; simpl. rewrite Hhi. reflexivity.
Qed.

Lemma camera_range_inv (env : Environment) (cam : CameraInput) (r : CameraRange) :
  camera_range env cam = Ok r ->
  exists s l,
    sensor (h_pixels cam) (v_pixels cam) (sensor_mode cam) = Ok s /\
    lens (sensor_diag_mm s) (lens_mode cam) = Ok l /\
    min_dist_mm (h_pixels cam) (sensor_width_mm s) (focal_length_mm l) = Ok (min_mm r) /\
    max_dist_mm env (sensor_width_mm s) (focal_length_mm l) = Ok (max_mm r).
Proof.
  unfold camera_range. intros H.
  apply bind_Ok_inv in H as (s & Hs & H).
  apply bind_Ok_inv in H as (l & Hl & H).
  apply bind_Ok_inv in H as (lo & Hlo & H).
  apply bind_Ok_inv in H as (hi & Hhi & H).
  injection H as <-. simpl. eauto 6.
Qed.

Lemma camera_range_near_bound (env : Environment) (cam : CameraInput) :
  result_map min_mm (camera_range env cam) = near_bound cam.
Proof.
  unfold result_map, camera_range, near_bound.
  destruct (sensor _ _ _) as [s | e]; simpl; [| reflexivity].
  destruct (lens _ _) as [l | e]; simpl; [| reflexivity].
  destruct (min_dist_mm _ _ _) as [lo | e]; simpl; [| reflexivity].
  destruct (max_dist_mm_total env (sensor_width_mm s) (focal_length_mm l)) as [hi ->].
  reflexivity.
Qed.

(** ** The default camera *)

Lemma default_camera_sensor :
  sensor 3848 2160 (SensorWidthMM 7.696) = Ok default_sensor.
Proof. apply sensor_width_mode. lia. Qed.

Lemma default_camera_lens :
  lens (sensor_diag_mm default_sensor) (FocalLengthMM 3) = Ok default_lens.
Proof. apply lens_focal_mode_nonzero. lra. Qed.

Lemma default_camera_sane (env : Environment) :
  valid_env env -> physically_sane env default_camera default_sensor default_lens.
Proof.
  intros Hv. unfold physically_sane; simpl.
  repeat split; try apply Hv; try lia; try lra;
    [exact default_camera_sensor | exact default_camera_lens].
Qed.

Lemma default_camera_range (env : Environment) :
  valid_env env ->
  camera_range env default_camera =
  Ok {| cam_name := name default_camera;
        min_mm := 3 / (7.696 / (3848 / 55 * 10)) + 3;
        max_mm := Rmin (3 / (7.696 / (Spec.max_field env * 10)) + 3)
                       (max_room_dist_cm env * 10) |}.
Proof.
  intros Hv. pose proof (max_field_pos env Hv) as Hpos.
  apply (camera_range_ok env default_camera _ _ _ _
           default_camera_sensor default_camera_lens); simpl.
  - rewrite min_dist_mm_nonzero; [reflexivity | lia |].
    unfold hfov_min_mm, hfov_min_cm, PIXELS_PER_CM. lra.
  - apply max_dist_mm_cap.
    rewrite max_dist_uncapped_nonzero; [reflexivity | assumption |].
    rewrite far_magnification_zero_iff by assumption. lra.
Qed.

(** ** Near bound: the formula *)

Lemma min_dist_mm_is_spec (h : Z) (sw f : R) :
  (1 <= h)%Z -> min_dist_mm h sw f = Ok (Spec.min_distance h sw f).
Proof.
  intros Hh. unfold Spec.min_distance. cbv zeta.
  change (Spec.near_magnification h sw) with (sw / hfov_min_mm h).
  destruct (Req_dec_T (sw / hfov_min_mm h) 0) as [Hz | Hnz].
  - now apply min_dist_mm_zero.
  - now apply min_dist_mm_nonzero.
Qed.

(** C3.  For a camera with at least one horizontal pixel, the near bound is
    computed without raising as the specification gives it: the minimum
    horizontal field is [h_pixels / 55] centimetres, the magnification is the
    sensor width over that field in millimetres, and the distance is
    [focal_length / magnification + focal_length], or 0 when the
    magnification is 0. *)
Theorem min_dist_mm_refines_spec (h : Z) (sw f : R) :
  (1 <= h)%Z ->
  PIXELS_PER_CM = 55 /\
  hfov_min_cm h = Spec.min_horizontal_field h /\
  mag_min h sw = Ok (Spec.near_magnification h sw) /\
  min_dist_mm h sw f = Ok (Spec.min_distance h sw f) /\
  (Spec.near_magnification h sw <> 0 ->
   min_dist_mm h sw f = Ok (f / Spec.near_magnification h sw + f)) /\
  (Spec.near_magnification h sw = 0 -> min_dist_mm h sw f = Ok 0).
Proof.
  intros Hh.
  assert (Hmag : Spec.near_magnification h sw = sw / hfov_min_mm h) by reflexivity.
  split; [reflexivity |]. split; [reflexivity |].
  split; [now apply mag_min_ok |].
  split; [| split].
  - now apply min_dist_mm_is_spec.
  - rewrite Hmag. now apply min_dist_mm_nonzero.
  - rewrite Hmag. now apply min_dist_mm_zero.
Qed.

Lemma min_dist_mm_refines_spec_default :
  (1 <= 3848)%Z /\
  min_dist_mm 3848 7.696 3 = Ok (Spec.min_distance 3848 7.696 3).
Proof.
  split; [lia |].
  apply (min_dist_mm_refines_spec 3848 7.696 3). lia.
Defined.

(** ** Far bound: the formula *)

Lemma max_dist_mm_unbounded_chart (env : Environment) (c : ChartOption) (sw f : R) :
  min_chart_fraction env = 0 ->
  max_dist_mm (set_chart_option env c) sw f = max_dist_mm env sw f.
Proof.
  intros Hz. unfold max_dist_mm, max_dist_uncapped_mm, mag_max.
  rewrite !hfov_max_mm_ok.
  rewrite (max_field_unbounded_chart env Hz).
  rewrite (max_field_unbounded_chart (set_chart_option env c) Hz).
  reflexivity.
Qed.

(** C4.  In an environment that meets the widgets' minimums, the far bound is
    computed as the specification gives it: the chart limits the field to
    [chart_width / min_chart_fraction], or not at all (infinity) when the
    fraction is 0; the field is the smaller of that and the wall width; the
    magnification is the sensor width over the field in millimetres; the
    distance is [focal_length / magnification + focal_length] capped at the
    room distance.  With a fraction of 0 the field is the wall width and the
    selected chart has no effect on the result. *)
Theorem max_dist_mm_refines_spec (env : Environment) (sw f : R) :
  valid_env env ->
  hfov_max_chart_cm env = Ok (Spec.max_field_from_chart env) /\
  hfov_max_cm env = Ok (Spec.max_field env) /\
  mag_max env sw = Ok (Spec.far_magnification env sw) /\
  (Spec.far_magnification env sw <> 0 ->
   max_dist_uncapped_mm env sw f = Ok (f / Spec.far_magnification env sw + f) /\
   max_dist_mm env sw f = Ok (Spec.max_distance env sw f)) /\
  (min_chart_fraction env = 0 ->
   hfov_max_chart_cm env = Ok Py.Inf /\
   hfov_max_cm env = Ok (wall_width_cm env) /\
   forall c, max_dist_mm (set_chart_option env c) sw f = max_dist_mm env sw f).
Proof.
  intros Hv.
  split; [apply hfov_max_chart_cm_ok |].
  split; [apply hfov_max_cm_ok |].
  split; [now apply mag_max_ok |].
  split.
  - intros Hnz.
    pose proof (max_dist_uncapped_nonzero env sw f Hv Hnz) as Hu.
    split; [exact Hu |].
    now apply max_dist_mm_cap.
  - intros Hz. split; [| split].
    + unfold hfov_max_chart_cm. now rewrite Hz, truthy_zero.
    + rewrite hfov_max_cm_ok. now rewrite max_field_unbounded_chart.
    + intros c. now apply max_dist_mm_unbounded_chart.
Qed.

Lemma default_env_valid : valid_env default_env.
Proof. unfold valid_env; simpl. lra. Qed.

Lemma full_frame_chart_env_valid : valid_env full_frame_chart_env.
Proof. unfold valid_env; simpl. lra. Qed.

Lemma shallow_room_env_valid : valid_env shallow_room_env.
Proof. unfold valid_env; simpl. lra. Qed.

Lemma max_dist_mm_refines_spec_default :
  valid_env default_env /\
  mag_max default_env 7.696 = Ok (Spec.far_magnification default_env 7.696).
Proof.
  split; [exact default_env_valid |].
  apply (max_dist_mm_refines_spec default_env 7.696 3 default_env_valid).
Defined.

(** ** Degenerate-input guards *)

(** C6.  When the magnification of the near or of the far bound is 0, the
    distance is 0 and nothing is raised; in a room of non-negative depth the
    capped far distance is 0 as well.  A sensor width of 0 is such a case for
    both bounds.  A focal length of 0 gives a field of view of 0, and a
    field-of-view angle of 0 gives a focal length of 0. *)
Theorem zero_magnification_gives_zero_distance :
  (forall h sw f, mag_min h sw = Ok 0 -> min_dist_mm h sw f = Ok 0) /\
  (forall env sw f,
     mag_max env sw = Ok 0 ->
     max_dist_uncapped_mm env sw f = Ok 0 /\
     (0 <= max_room_dist_cm env -> max_dist_mm env sw f = Ok 0)) /\
  (forall h env f,
     (1 <= h)%Z -> valid_env env ->
     mag_min h 0 = Ok 0 /\ mag_max env 0 = Ok 0 /\
     min_dist_mm h 0 f = Ok 0 /\ max_dist_mm env 0 f = Ok 0) /\
  (forall diag,
     lens diag (FocalLengthMM 0) = Ok {| focal_length_mm := 0; dfov_deg := 0 |}) /\
  (forall diag,
     lens diag (DiagonalFOVDeg 0) = Ok {| focal_length_mm := 0; dfov_deg := 0 |}).
Proof.
  assert (Hnear : forall h sw f, mag_min h sw = Ok 0 -> min_dist_mm h sw f = Ok 0).
  { intros h sw f Hm. unfold min_dist_mm. rewrite Hm. simpl.
    now rewrite truthy_zero. }
  assert (Hfar : forall env sw f,
             mag_max env sw = Ok 0 ->
             max_dist_uncapped_mm env sw f = Ok 0 /\
             (0 <= max_room_dist_cm env -> max_dist_mm env sw f = Ok 0)).
  { intros env sw f Hm.
    assert (Hu : max_dist_uncapped_mm env sw f = Ok 0).
    { unfold max_dist_uncapped_mm. rewrite Hm. simpl. now rewrite truthy_zero. }
    split; [exact Hu |]. intros Hroom.
    rewrite (max_dist_mm_cap env sw f 0 Hu). f_equal.
    apply Rmin_left. lra. }
  split; [exact Hnear |]. split; [exact Hfar |].
  split; [| split; [apply lens_focal_mode_zero | apply lens_fov_mode_zero]].
  intros h env f Hh Hv.
  assert (Hmin0 : mag_min h 0 = Ok 0).
  { rewrite mag_min_ok by assumption. f_equal.
    apply div_pos_zero_iff; [now apply hfov_min_mm_pos | reflexivity]. }
  assert (Hmax0 : mag_max env 0 = Ok 0).
  { rewrite mag_max_ok by assumption. f_equal.
    now apply far_magnification_zero_iff. }
  repeat split; try assumption.
  - now apply Hnear.
  - apply Hfar; [assumption |]. destruct Hv as (_ & Hr & _). lra.
Qed.

(** ** Noninterference of the environment on the near bound *)

Lemma default_camera_valid : valid_camera default_camera.
Proof. unfold valid_camera; simpl. repeat split; try lia; lra. Qed.

(** C9.  Two runs on the same camera in any two environments produce the
    same near bound (or raise alike): the near bound is computed from the
    camera alone, as the specification's formula of [h_pixels], the
    threshold, the sensor width and the focal length, and the room distance
    does not cap it: the default camera in a room 100 mm deep keeps a near
    bound above 100 mm. *)
Theorem near_bound_ignores_environment :
  (forall env1 env2 cam,
     result_map min_mm (camera_range env1 cam) =
     result_map min_mm (camera_range env2 cam)) /\
  (forall env cam r,
     camera_range env cam = Ok r ->
     (1 <= h_pixels cam)%Z ->
     exists s l,
       sensor (h_pixels cam) (v_pixels cam) (sensor_mode cam) = Ok s /\
       lens (sensor_diag_mm s) (lens_mode cam) = Ok l /\
       min_mm r = Spec.min_distance (h_pixels cam) (sensor_width_mm s)
                                    (focal_length_mm l)) /\
  (exists r,
     valid_env shallow_room_env /\ valid_camera default_camera /\
     camera_range shallow_room_env default_camera = Ok r /\
     max_room_dist_cm shallow_room_env * 10 < min_mm r).
Proof.
  split; [| split].
  - intros env1 env2 cam. now rewrite !camera_range_near_bound.
  - intros env cam r Hr Hh.
    destruct (camera_range_inv env cam r Hr) as (s & l & Hs & Hl & Hlo & _).
    exists s, l. repeat split; try assumption.
    pose proof (min_dist_mm_is_spec (h_pixels cam) (sensor_width_mm s)
                  (focal_length_mm l) Hh) as Hspec.
    congruence.
  - pose proof (default_camera_range shallow_room_env shallow_room_env_valid) as Hr.
    eexists. split; [exact shallow_room_env_valid |].
    split; [exact default_camera_valid |].
    split; [exact Hr |]. simpl. lra.
Qed.

(** ** Ordering of a camera's own bounds *)

Lemma camera_range_bounds (env : Environment) (cam : CameraInput)
  (s : Sensor) (l : Lens) :
  valid_env env -> (1 <= h_pixels cam)%Z ->
  sensor (h_pixels cam) (v_pixels cam) (sensor_mode cam) = Ok s ->
  lens (sensor_diag_mm s) (lens_mode cam) = Ok l ->
  0 < sensor_width_mm s ->
  camera_range env cam =
  Ok {| cam_name := name cam;
        min_mm := focal_length_mm l / sensor_width_mm s * hfov_min_mm (h_pixels cam)
                  + focal_length_mm l;
        max_mm := Rmin (focal_length_mm l / sensor_width_mm s * (Spec.max_field env * 10)
                        + focal_length_mm l)
                       (max_room_dist_cm env * 10) |}.
Proof.
  intros Hv Hh Hs Hl Hsw.
  pose proof (hfov_min_mm_pos _ Hh) as Hmin.
  pose proof (max_field_pos env Hv) as Hmax.
  apply (camera_range_ok env cam s l _ _ Hs Hl).
  - rewrite min_dist_mm_nonzero.
    + f_equal. field. lra.
    + assumption.
    + rewrite div_pos_zero_iff by assumption. lra.
  - apply max_dist_mm_cap. rewrite max_dist_uncapped_nonzero.
    + f_equal. unfold Spec.far_magnification. field. lra.
    + assumption.
    + rewrite far_magnification_zero_iff by assumption. lra.
Qed.

Lemma sane_bounds (env : Environment) (cam : CameraInput) (s : Sensor) (l : Lens) :
  physically_sane env cam s l ->
  camera_range env cam =
  Ok {| cam_name := name cam;
        min_mm := focal_length_mm l / sensor_width_mm s * hfov_min_mm (h_pixels cam)
                  + focal_length_mm l;
        max_mm := Rmin (focal_length_mm l / sensor_width_mm s * (Spec.max_field env * 10)
                        + focal_length_mm l)
                       (max_room_dist_cm env * 10) |}.
Proof.
  intros (Hv & Hh & _ & Hs & Hl & Hsw & _). now apply camera_range_bounds.
Qed.

(** C2, as the code has it.  For a camera with physically sane inputs the
    loop body returns a range, and in it [min_mm <= max_mm] holds exactly
    when the resolution-limited field [h_pixels / 55] cm is no wider than the
    far field [min(wall_width, chart_width / min_chart_fraction)] and the near
    bound is within the room distance. *)
Theorem min_le_max_iff_fields_ordered
  (env : Environment) (cam : CameraInput) (s : Sensor) (l : Lens) :
  physically_sane env cam s l ->
  exists r,
    camera_range env cam = Ok r /\
    (min_mm r <= max_mm r <->
     hfov_min_cm (h_pixels cam) <= Spec.max_field env /\
     min_mm r <= max_room_dist_cm env * 10).
Proof.
  intros Hsane. pose proof (sane_bounds env cam s l Hsane) as Hr.
  destruct Hsane as (Hv & Hh & _ & _ & _ & Hsw & Hf).
  eexists. split; [exact Hr |]. simpl.
  assert (Hk : 0 < focal_length_mm l / sensor_width_mm s)
    by now apply Rdiv_lt_0_compat.
  unfold hfov_min_mm.
  set (k := focal_length_mm l / sensor_width_mm s) in *.
  set (a := hfov_min_cm (h_pixels cam)).
  set (b := Spec.max_field env).
  set (room := max_room_dist_cm env * 10).
  split.
  - intros Hle. split.
    + pose proof (Rmin_l (k * (b * 10) + focal_length_mm l) room). nra.
    + pose proof (Rmin_r (k * (b * 10) + focal_length_mm l) room). lra.
  - intros [Hab Hroom]. apply Rmin_glb; [nra | lra].
Qed.

Lemma min_le_max_iff_fields_ordered_default :
  physically_sane default_env default_camera default_sensor default_lens /\
  exists r,
    camera_range default_env default_camera = Ok r /\
    (min_mm r <= max_mm r <->
     hfov_min_cm (h_pixels default_camera) <= Spec.max_field default_env /\
     min_mm r <= max_room_dist_cm default_env * 10).
Proof.
  split; [exact (default_camera_sane default_env default_env_valid) |].
  apply (min_le_max_iff_fields_ordered default_env default_camera
           default_sensor default_lens).
  exact (default_camera_sane default_env default_env_valid).
Defined.

Lemma max_field_full_frame_chart : Spec.max_field full_frame_chart_env = 21.
Proof.
  unfold Spec.max_field, Spec.max_field_from_chart, chart_width_cm; simpl.
  destruct (Req_dec_T 1 0); [lra |].
  unfold Rmin. destruct (Rle_dec 300 (210 / 10 / 1)); lra.
Qed.

(** C2 fails as stated: the default camera (3848 px, 7.696 mm sensor, 3 mm
    lens) is physically sane, yet with the chart required to fill the whole
    field of view its range is 275.7 mm to 84.9 mm, and in a room 100 mm deep
    it is 275.7 mm to 100 mm. *)
Lemma sane_camera_with_min_above_max :
  (physically_sane full_frame_chart_env default_camera default_sensor default_lens /\
   exists r,
     camera_range full_frame_chart_env default_camera = Ok r /\
     max_mm r < 85 /\ 275 < min_mm r) /\
  (physically_sane shallow_room_env default_camera default_sensor default_lens /\
   exists r,
     camera_range shallow_room_env default_camera = Ok r /\
     max_mm r <= 100 /\ 275 < min_mm r).
Proof.
  split; (split; [apply default_camera_sane |]).
  - exact full_frame_chart_env_valid.
  - eexists. split; [exact (default_camera_range _ full_frame_chart_env_valid) |].
    simpl. rewrite max_field_full_frame_chart. split; [| lra].
    eapply Rle_lt_trans; [apply Rmin_l | lra].
  - exact shallow_room_env_valid.
  - eexists. split; [exact (default_camera_range _ shallow_room_env_valid) |].
    simpl. split; [| lra].
    eapply Rle_trans; [apply Rmin_r | lra].
Qed.

(** ** Round trips between the two sensor modes and the two lens modes *)

Lemma radians_half_degrees (x : R) : Py.radians (Py.degrees (2 * x) / 2) = x.
Proof.
  unfold Py.radians, Py.degrees. field. apply PI_neq0.
Qed.

Lemma atan_pos (y : R) : 0 < y -> 0 < atan y.
Proof. intros Hy. rewrite <- atan_0. now apply atan_increasing. Qed.

Lemma degrees_pos (x : R) : 0 < x -> 0 < Py.degrees x.
Proof.
  intros Hx. unfold Py.degrees. pose proof PI_RGT_0.
  apply Rmult_lt_0_compat; [assumption |].
  apply Rdiv_lt_0_compat; lra.
Qed.

(** C5.  A pixel pitch entered directly gives a sensor width that, entered
    as the width, gives back the same pitch (and the same sensor altogether).
    A focal length entered directly, on a sensor of positive diagonal, gives a
    diagonal field of view that, entered as the angle, gives back the same
    focal length (and the same lens altogether).  Arithmetic is exact here. *)
Theorem normalizer_round_trip (h v : Z) (ps diag fl : R) :
  (1 <= h)%Z -> 0 < ps -> 0 < diag -> 0 < fl ->
  (exists s,
     sensor h v (PixelSizeUM ps) = Ok s /\
     sensor_width_mm s = IZR h * ps / 1000 /\
     sensor h v (SensorWidthMM (sensor_width_mm s)) = Ok s /\
     pixel_size_um s = ps) /\
  (exists l,
     lens diag (FocalLengthMM fl) = Ok l /\
     dfov_deg l = Py.degrees (2 * atan (diag / 2 / fl)) /\
     lens diag (DiagonalFOVDeg (dfov_deg l)) = Ok l /\
     focal_length_mm l = fl).
Proof.
  intros Hh Hps Hdiag Hfl. pose proof (IZR_pos_nonzero h Hh) as Hh0.
  split.
  - eexists. split; [apply sensor_pixel_mode |].
    cbn [sensor_width_mm pixel_size_um].
    split; [reflexivity |]. split; [| reflexivity].
    rewrite sensor_width_mode by assumption.
    replace (IZR h * ps / 1000 / IZR h * 1000) with ps by (field; assumption).
    reflexivity.
  - assert (Hy : 0 < diag / 2 / fl).
    { apply Rdiv_lt_0_compat; lra. }
    eexists. split; [apply lens_focal_mode_nonzero; lra |].
    cbn [dfov_deg focal_length_mm].
    split; [reflexivity |]. split; [| reflexivity].
    rewrite lens_fov_mode_nonzero.
    + rewrite radians_half_degrees, tan_atan.
      replace (diag / 2 / (diag / 2 / fl)) with fl by (field; lra).
      reflexivity.
    + apply Rgt_not_eq. apply degrees_pos.
      pose proof (atan_pos _ Hy). lra.
    + rewrite radians_half_degrees, tan_atan. lra.
Qed.

Lemma normalizer_round_trip_default :
  (exists s,
     sensor 3848 2160 (PixelSizeUM 2) = Ok s /\
     sensor_width_mm s = 3848 * 2 / 1000 /\
     sensor 3848 2160 (SensorWidthMM (sensor_width_mm s)) = Ok s /\
     pixel_size_um s = 2) /\
  (exists l,
     lens 8 (FocalLengthMM 3) = Ok l /\
     dfov_deg l = Py.degrees (2 * atan (8 / 2 / 3)) /\
     lens 8 (DiagonalFOVDeg (dfov_deg l)) = Ok l /\
     focal_length_mm l = 3).
Proof.
  apply (normalizer_round_trip 3848 2160 2 8 3); [lia | lra | lra | lra].
Defined.

(** ** Scenario A *)

Lemma default_sensor_diag_bounds :
  8.825 < sensor_diag_mm default_sensor < 8.826.
Proof.
  simpl. unfold Py.hypot.
  split.
  - rewrite <- (sqrt_square 8.825) by lra. apply sqrt_lt_1_alt. lra.
  - rewrite <- (sqrt_square 8.826) by lra. apply sqrt_lt_1_alt. lra.
Qed.

(** C8, as the code has it.  For 3848 x 2160 pixels on a sensor 7.696 mm
    wide the normaliser returns a pitch of exactly 2 um, a height of exactly
    4.32 mm and the diagonal [sqrt (width^2 + height^2)], which lies between
    8.825 and 8.826 mm and so reads 8.83 mm. *)
Theorem scenario_a_sensor :
  exists s,
    sensor 3848 2160 (SensorWidthMM 7.696) = Ok s /\
    pixel_size_um s = 2 /\
    sensor_height_mm s = 4.32 /\
    sensor_diag_mm s = sqrt (sensor_width_mm s * sensor_width_mm s +
                             sensor_height_mm s * sensor_height_mm s) /\
    shown_as_2dp (pixel_size_um s) 2.00 /\
    shown_as_2dp (sensor_height_mm s) 4.32 /\
    8.825 < sensor_diag_mm s < 8.826 /\
    shown_as_2dp (sensor_diag_mm s) 8.83.
Proof.
  exists default_sensor. pose proof default_sensor_diag_bounds as Hd.
  split; [exact default_camera_sensor |].
  unfold shown_as_2dp. simpl in Hd |- *.
  repeat split; try lra; try reflexivity; apply Rabs_le; lra.
Qed.

(** C8 fails as stated: the diagonal of that sensor is above 8.82 mm, so it
    does not read 8.72 mm. *)
Lemma scenario_a_diagonal_is_not_8_72 :
  exists s,
    sensor 3848 2160 (SensorWidthMM 7.696) = Ok s /\
    8.82 < sensor_diag_mm s /\
    ~ shown_as_2dp (sensor_diag_mm s) 8.72.
Proof.
  exists default_sensor. pose proof default_sensor_diag_bounds as Hd.
  split; [exact default_camera_sensor |].
  split; [lra |].
  unfold shown_as_2dp. intros Habs.
  pose proof (Rle_abs (sensor_diag_mm default_sensor - 8.72)). lra.
Qed.

(** ** Fields of view beyond 180 degrees *)

Lemma tan_neg_second_quadrant (x : R) : PI / 2 < x < PI -> tan x < 0.
Proof.
  intros [Hlo Hhi]. pose proof PI_RGT_0 as Hpi.
  assert (Hsin : 0 < sin x) by (apply sin_gt_0; lra).
  assert (Hcos : cos x < 0) by (apply cos_lt_0; lra).
  unfold tan, Rdiv. apply Rinv_lt_0_compat in Hcos. nra.
Qed.

Lemma radians_half_second_quadrant (dfov : R) :
  180 < dfov < 360 -> PI / 2 < Py.radians (dfov / 2) < PI.
Proof.
  intros [Hlo Hhi]. pose proof PI_RGT_0 as Hpi. unfold Py.radians. nra.
Qed.

(** C10.  The angle widget accepts any non-negative value.  For an angle
    strictly between 180 and 360 degrees, on a sensor of positive width and
    positive diagonal, in an environment that meets the widgets' minimums,
    the tangent of the half angle is negative, the derived focal length is
    negative, the loop body returns a range, and both its [min_mm] and its
    [max_mm] are negative. *)
Theorem wide_fov_gives_negative_distances
  (env : Environment) (cam : CameraInput) (s : Sensor) (dfov : R) :
  valid_env env -> (1 <= h_pixels cam)%Z ->
  sensor (h_pixels cam) (v_pixels cam) (sensor_mode cam) = Ok s ->
  0 < sensor_width_mm s -> 0 < sensor_diag_mm s ->
  lens_mode cam = DiagonalFOVDeg dfov -> 180 < dfov < 360 ->
  valid_lens (lens_mode cam) /\
  tan (Py.radians (dfov / 2)) < 0 /\
  exists l r,
    lens (sensor_diag_mm s) (lens_mode cam) = Ok l /\
    focal_length_mm l = sensor_diag_mm s / 2 / tan (Py.radians (dfov / 2)) /\
    focal_length_mm l < 0 /\
    camera_range env cam = Ok r /\
    min_mm r < 0 /\ max_mm r < 0.
Proof.
  intros Hv Hh Hs Hsw Hdiag Hmode Hd.
  pose proof (tan_neg_second_quadrant _ (radians_half_second_quadrant dfov Hd)) as Htan.
  assert (Hl : lens (sensor_diag_mm s) (lens_mode cam) =
               Ok {| focal_length_mm := sensor_diag_mm s / 2 / tan (Py.radians (dfov / 2));
                     dfov_deg := dfov |}).
  { rewrite Hmode. apply lens_fov_mode_nonzero; lra. }
  assert (Hf : sensor_diag_mm s / 2 / tan (Py.radians (dfov / 2)) < 0).
  { unfold Rdiv at 1. apply Rinv_lt_0_compat in Htan. nra. }
  split; [rewrite Hmode; simpl; lra |]. split; [exact Htan |].
  eexists. eexists. split; [exact Hl |]. cbn [focal_length_mm].
  split; [reflexivity |]. split; [exact Hf |].
  split; [exact (camera_range_bounds env cam s _ Hv Hh Hs Hl Hsw) |].
  cbn [min_mm max_mm focal_length_mm].
  set (f := sensor_diag_mm s / 2 / tan (Py.radians (dfov / 2))) in *.
  pose proof (hfov_min_mm_pos _ Hh) as Hmin.
  pose proof (max_field_pos env Hv) as Hmax.
  assert (Hk : f / sensor_width_mm s < 0).
  { unfold Rdiv. apply Rinv_0_lt_compat in Hsw. nra. }
  split; [nra |].
  eapply Rle_lt_trans; [apply Rmin_l | nra].
Qed.

Lemma wide_fov_gives_negative_distances_270 :
  tan (Py.radians (270 / 2)) < 0 /\
  exists l r,
    lens (sensor_diag_mm default_sensor) (lens_mode wide_fov_camera) = Ok l /\
    focal_length_mm l < 0 /\
    camera_range default_env wide_fov_camera = Ok r /\
    min_mm r < 0 /\ max_mm r < 0.
Proof.
  destruct (wide_fov_gives_negative_distances default_env wide_fov_camera
              default_sensor 270)
    as (_ & Htan & l & r & Hl & _ & Hf & Hr & Hlo & Hhi).
  - exact default_env_valid.
  - simpl. lia.
  - exact default_camera_sensor.
  - simpl. lra.
  - pose proof default_sensor_diag_bounds. lra.
  - reflexivity.
  - lra.
  - split; [exact Htan |]. exists l, r. auto.
Defined.

(** ** Totality *)

Lemma mapM_total {A B : Type} (f : A -> result B) (l : list A) :
  (forall a, In a l -> exists b, f a = Ok b) ->
  exists bs, mapM f l = Ok bs /\ List.length bs = List.length l.
Proof.
  induction l as [| a t IH]; intros Hall; simpl.
  - exists []. split; reflexivity.
  - destruct (Hall a (or_introl eq_refl)) as [b Hb].
    destruct IH as (bs & Hbs & Hlen); [intros; apply Hall; now right |].
    exists (b :: bs). rewrite Hb, Hbs. simpl. split; [reflexivity | now rewrite Hlen].
Qed.

Lemma lens_total (diag : R) (cam : CameraInput) :
  tangent_nonzero cam -> exists l, lens diag (lens_mode cam) = Ok l.
Proof.
  unfold tangent_nonzero. destruct (lens_mode cam) as [fl | dfov]; intros Ht.
  - destruct (lens_focal_mode_total diag fl) as [d Hd]. eauto.
  - destruct (Req_dec_T dfov 0) as [-> | Hnz].
    + eexists. apply lens_fov_mode_zero.
    + eexists. apply lens_fov_mode_nonzero; auto.
Qed.

Lemma camera_range_total (env : Environment) (cam : CameraInput) :
  (1 <= h_pixels cam)%Z -> tangent_nonzero cam ->
  exists r, camera_range env cam = Ok r.
Proof.
  intros Hh Ht.
  destruct (sensor_total (h_pixels cam) (v_pixels cam) (sensor_mode cam) Hh) as [s Hs].
  destruct (lens_total (sensor_diag_mm s) cam Ht) as [l Hl].
  destruct (min_dist_mm_total (h_pixels cam) (sensor_width_mm s) (focal_length_mm l) Hh)
    as [lo Hlo].
  destruct (max_dist_mm_total env (sensor_width_mm s) (focal_length_mm l)) as [hi Hhi].
  eexists. now apply (camera_range_ok env cam s l lo hi).
Qed.

Lemma intersection_total (cameras : list CameraRange) :
  cameras <> [] -> exists o, intersection cameras = Ok o.
Proof.
  intros Hne. unfold intersection, lower_mm, upper_mm.
  destruct cameras as [| c rest]; [congruence |]. simpl. eauto.
Qed.

(** Every division but the one of line 89 is behind a test of its own
    divisor: the script returns whenever that divisor is not zero. *)
Lemma run_total (env : Environment) (inputs : list CameraInput) :
  inputs <> [] ->
  (forall cam, In cam inputs -> (1 <= h_pixels cam)%Z /\ tangent_nonzero cam) ->
  exists cameras o, run env inputs = Ok (cameras, o).
Proof.
  intros Hne Hall. unfold run.
  destruct (mapM_total (camera_range env) inputs) as (cameras & Hc & Hlen).
  { intros cam Hin. destruct (Hall cam Hin). now apply camera_range_total. }
  assert (Hcne : cameras <> []).
  { destruct cameras; [| congruence]. destruct inputs; [congruence | discriminate]. }
  destruct (intersection_total cameras Hcne) as [o Ho].
  exists cameras, o. rewrite Hc. simpl. rewrite Ho. reflexivity.
Qed.

(** In exact arithmetic the divisor of line 89 vanishes at a full turn. *)
Lemma lens_fov_360_raises (diag : R) :
  lens diag (DiagonalFOVDeg 360) = Raise ZeroDivisionError.
Proof.
  apply lens_fov_mode_tan_zero; [lra |].
  replace (Py.radians (360 / 2)) with PI
    by (unfold Py.radians; field; apply PI_neq0).
  apply tan_PI.
Qed.

Lemma run_total_default :
  [default_camera] <> [] /\
  exists cameras o, run default_env [default_camera] = Ok (cameras, o).
Proof.
  split; [discriminate |].
  apply (run_total default_env [default_camera]); [discriminate |].
  intros cam [<- | []]. split; [simpl; lia | exact I].
Defined.

(** ** Sensor width against the pixel count *)

(** With the pitch held fixed the derived sensor width is linear in the
    horizontal pixel count, and grows with it when the pitch is positive. *)
Lemma sensor_width_linear_in_h_pixels (h1 h2 v : Z) (ps : R) :
  (h1 < h2)%Z -> 0 < ps ->
  exists s1 s2 s12,
    sensor h1 v (PixelSizeUM ps) = Ok s1 /\
    sensor h2 v (PixelSizeUM ps) = Ok s2 /\
    sensor (h1 + h2) v (PixelSizeUM ps) = Ok s12 /\
    sensor_width_mm s1 = IZR h1 * (ps / 1000) /\
    sensor_width_mm s12 = sensor_width_mm s1 + sensor_width_mm s2 /\
    sensor_width_mm s1 < sensor_width_mm s2.
Proof.
  intros Hlt Hps. apply IZR_lt in Hlt.
  do 3 eexists. rewrite !sensor_pixel_mode.
  split; [reflexivity |]. split; [reflexivity |]. split; [reflexivity |].
  cbn [sensor_width_mm]. rewrite plus_IZR.
  split; [field |]. split; [field |]. nra.
Qed.

Lemma sensor_width_linear_in_h_pixels_example :
  exists s1 s2 s12,
    sensor 1920 1080 (PixelSizeUM 2) = Ok s1 /\
    sensor 3840 1080 (PixelSizeUM 2) = Ok s2 /\
    sensor (1920 + 3840) 1080 (PixelSizeUM 2) = Ok s12 /\
    sensor_width_mm s1 = 1920 * (2 / 1000) /\
    sensor_width_mm s12 = sensor_width_mm s1 + sensor_width_mm s2 /\
    sensor_width_mm s1 < sensor_width_mm s2.
Proof.
  apply (sensor_width_linear_in_h_pixels 1920 3840 1080 2); [lia | lra].
Defined.

(** ** The reducer as an intersection of intervals *)

Lemma is_maximum_unique (l : list R) (m m' : R) :
  is_maximum m l -> is_maximum m' l -> m = m'.
Proof.
  intros [Hin Hub] [Hin' Hub']. apply Rle_antisym; auto.
Qed.

Lemma is_minimum_unique (l : list R) (m m' : R) :
  is_minimum m l -> is_minimum m' l -> m = m'.
Proof.
  intros [Hin Hlb] [Hin' Hlb']. apply Rle_antisym; auto.
Qed.

Lemma max_Ok_inv (l : list R) (m : R) :
  Py.max l = Ok m -> l <> [] /\ is_maximum m l.
Proof.
  destruct l as [| x rest]; simpl; intros H; [discriminate |].
  injection H as <-. split; [discriminate | apply max_from_spec].
Qed.

Lemma min_Ok_inv (l : list R) (m : R) :
  Py.min l = Ok m -> l <> [] /\ is_minimum m l.
Proof.
  destruct l as [| x rest]; simpl; intros H; [discriminate |].
  injection H as <-. split; [discriminate | apply min_from_spec].
Qed.

Lemma max_of_maximum (l : list R) (m : R) :
  is_maximum m l -> Py.max l = Ok m.
Proof.
  intros Hm. assert (Hne : l <> []) by (destruct l; [destruct Hm as [[] _] | discriminate]).
  destruct (max_nonempty l Hne) as (m' & -> & Hm').
  f_equal. now apply (is_maximum_unique l).
Qed.

Lemma min_of_minimum (l : list R) (m : R) :
  is_minimum m l -> Py.min l = Ok m.
Proof.
  intros Hm. assert (Hne : l <> []) by (destruct l; [destruct Hm as [[] _] | discriminate]).
  destruct (min_nonempty l Hne) as (m' & -> & Hm').
  f_equal. now apply (is_minimum_unique l).
Qed.

Lemma bounds_of_nonempty (cameras : list CameraRange) :
  cameras <> [] ->
  exists lower upper,
    lower_mm cameras = Ok lower /\ upper_mm cameras = Ok upper /\
    (exists c, In c cameras /\ min_mm c = lower) /\
    (exists c, In c cameras /\ max_mm c = upper) /\
    (forall c, In c cameras -> min_mm c <= lower /\ upper <= max_mm c).
Proof.
  intros Hne.
  assert (Hmin : map min_mm cameras <> []) by (destruct cameras; simpl; congruence).
  assert (Hmax : map max_mm cameras <> []) by (destruct cameras; simpl; congruence).
  destruct (max_nonempty _ Hmin) as (lower & Hl & Hlin & Hlub).
  destruct (min_nonempty _ Hmax) as (upper & Hu & Huin & Hulb).
  exists lower, upper. split; [exact Hl |]. split; [exact Hu |].
  apply in_map_iff in Hlin as (cl & Hcl & Hclin).
  apply in_map_iff in Huin as (cu & Hcu & Hcuin).
  split; [now exists cl |]. split; [now exists cu |].
  intros c Hc. split; [apply Hlub | apply Hulb]; now apply in_map.
Qed.

(** The reported common range is the set of distances that suit every
    camera, and "no overlap" is reported exactly when no distance suits them
    all. *)
Theorem common_range_is_intersection (cameras : list CameraRange) :
  cameras <> [] ->
  (exists lower upper,
     intersection cameras = Ok (CommonRange lower upper) /\
     lower <= upper /\
     forall d, lower <= d <= upper <-> (forall c, In c cameras -> within d c)) \/
  (intersection cameras = Ok NoOverlap /\
   forall d, ~ (forall c, In c cameras -> within d c)).
Proof.
  intros Hne.
  destruct (bounds_of_nonempty cameras Hne)
    as (lower & upper & Hl & Hu & (cl & Hclin & Hcl) & (cu & Hcuin & Hcu) & Hall).
  destruct (intersection_of_bounds cameras lower upper Hl Hu) as [Hyes Hno].
  destruct (Rle_dec lower upper) as [Hle | Hgt].
  - left. exists lower, upper. split; [now apply Hyes |]. split; [exact Hle |].
    intros d. split.
    + intros [Hd1 Hd2] c Hc. destruct (Hall c Hc). unfold within. lra.
    + intros Hd. pose proof (Hd cl Hclin) as [H1 _]. pose proof (Hd cu Hcuin) as [_ H2].
      lra.
  - right. split; [apply Hno; lra |].
    intros d Hd. pose proof (Hd cl Hclin) as [H1 _]. pose proof (Hd cu Hcuin) as [_ H2].
    lra.
Qed.

Lemma common_range_is_intersection_scenario_c :
  (exists lower upper,
     intersection scenario_c = Ok (CommonRange lower upper) /\
     lower <= upper /\
     forall d, lower <= d <= upper <-> (forall c, In c scenario_c -> within d c)) \/
  (intersection scenario_c = Ok NoOverlap /\
   forall d, ~ (forall c, In c scenario_c -> within d c)).
Proof.
  apply (common_range_is_intersection scenario_c). discriminate.
Defined.

Lemma is_maximum_permutation (l l' : list R) (m : R) :
  Permutation l l' -> is_maximum m l -> is_maximum m l'.
Proof.
  intros Hp [Hin Hub]. split.
  - now apply (Permutation_in _ Hp).
  - intros x Hx. apply Hub. now apply (Permutation_in _ (Permutation_sym Hp)).
Qed.

Lemma is_minimum_permutation (l l' : list R) (m : R) :
  Permutation l l' -> is_minimum m l -> is_minimum m l'.
Proof.
  intros Hp [Hin Hlb]. split.
  - now apply (Permutation_in _ Hp).
  - intros x Hx. apply Hlb. now apply (Permutation_in _ (Permutation_sym Hp)).
Qed.

(** The order in which the cameras are entered does not matter to the
    outcome. *)
Theorem intersection_permutation (cameras cameras' : list CameraRange) :
  Permutation cameras cameras' ->
  intersection cameras = intersection cameras'.
Proof.
  intros Hp. destruct cameras as [| c rest].
  - apply Permutation_nil in Hp. now subst.
  - assert (Hlow : lower_mm (c :: rest) = lower_mm cameras').
    { unfold lower_mm. symmetry. apply max_of_maximum.
      apply (is_maximum_permutation (map min_mm (c :: rest))).
      - now apply Permutation_map.
      - apply max_from_spec. }
    assert (Hup : upper_mm (c :: rest) = upper_mm cameras').
    { unfold upper_mm. symmetry. apply min_of_minimum.
      apply (is_minimum_permutation (map max_mm (c :: rest))).
      - now apply Permutation_map.
      - apply min_from_spec. }
    unfold intersection. now rewrite Hlow, Hup.
Qed.

Lemma intersection_permutation_scenario_c :
  Permutation scenario_c (rev scenario_c) /\
  intersection scenario_c = intersection (rev scenario_c).
Proof.
  split; [apply Permutation_rev |].
  apply (intersection_permutation scenario_c (rev scenario_c)).
  apply Permutation_rev.
Defined.

(** Entering more cameras takes the larger of the lower bounds and the
    smaller of the upper bounds, so it can only narrow the common range: a
    set of cameras without a common range has none after more are added. *)
Theorem intersection_app_narrows
  (l1 l2 : list CameraRange) (lo1 up1 lo2 up2 : R) :
  lower_mm l1 = Ok lo1 -> upper_mm l1 = Ok up1 ->
  lower_mm l2 = Ok lo2 -> upper_mm l2 = Ok up2 ->
  lower_mm (l1 ++ l2) = Ok (Rmax lo1 lo2) /\
  upper_mm (l1 ++ l2) = Ok (Rmin up1 up2) /\
  (intersection l1 = Ok NoOverlap -> intersection (l1 ++ l2) = Ok NoOverlap).
Proof.
  unfold lower_mm, upper_mm. intros Hlo1 Hup1 Hlo2 Hup2.
  apply max_Ok_inv in Hlo1 as (_ & Hin1 & Hub1).
  apply max_Ok_inv in Hlo2 as (_ & Hin2 & Hub2).
  apply min_Ok_inv in Hup1 as (_ & Hjn1 & Hlb1).
  apply min_Ok_inv in Hup2 as (_ & Hjn2 & Hlb2).
  assert (Hlo : Py.max (map min_mm (l1 ++ l2)) = Ok (Rmax lo1 lo2)).
  { apply max_of_maximum. rewrite map_app. split.
    - apply in_or_app. unfold Rmax. destruct (Rle_dec lo1 lo2); auto.
    - intros x Hx. apply in_app_or in Hx as [Hx | Hx].
      + eapply Rle_trans; [now apply Hub1 | apply Rmax_l].
      + eapply Rle_trans; [now apply Hub2 | apply Rmax_r]. }
  assert (Hup : Py.min (map max_mm (l1 ++ l2)) = Ok (Rmin up1 up2)).
  { apply min_of_minimum. rewrite map_app. split.
    - apply in_or_app. unfold Rmin. destruct (Rle_dec up1 up2); auto.
    - intros x Hx. apply in_app_or in Hx as [Hx | Hx].
      + eapply Rle_trans; [apply Rmin_l | now apply Hlb1].
      + eapply Rle_trans; [apply Rmin_r | now apply Hlb2]. }
  split; [exact Hlo |]. split; [exact Hup |].
  intros Hno.
  assert (Hgt : up1 < lo1).
  { unfold intersection, lower_mm, upper_mm in Hno.
    rewrite (max_of_maximum _ lo1 (conj Hin1 Hub1)) in Hno.
    rewrite (min_of_minimum _ up1 (conj Hjn1 Hlb1)) in Hno. simpl in Hno.
    destruct (Rle_dec lo1 up1); [discriminate | lra]. }
  apply (intersection_of_bounds (l1 ++ l2) _ _ Hlo Hup).
  pose proof (Rmax_l lo1 lo2). pose proof (Rmin_l up1 up2). lra.
Qed.

Lemma intersection_app_narrows_scenario_c :
  lower_mm (scenario_c ++ scenario_c) = Ok (Rmax 350 350) /\
  upper_mm (scenario_c ++ scenario_c) = Ok (Rmin 300 300) /\
  (intersection scenario_c = Ok NoOverlap ->
   intersection (scenario_c ++ scenario_c) = Ok NoOverlap).
Proof.
  apply (intersection_app_narrows scenario_c scenario_c 350 300 350 300);
    apply scenario_c_no_overlap.
Defined.

(** ** The script as a whole: what it lists, when it raises *)

Lemma mapM_Ok_inv {A B : Type} (f : A -> result B) (l : list A) (bs : list B) :
  mapM f l = Ok bs -> Forall2 (fun a b => f a = Ok b) l bs.
Proof.
  revert bs. induction l as [| a t IH]; simpl; intros bs H.
  - injection H as <-. constructor.
  - apply bind_Ok_inv in H as (b & Hb & H).
    apply bind_Ok_inv in H as (bs' & Hbs & H).
    injection H as <-. constructor; auto.
Qed.









Lemma max_field_default_env : Spec.max_field default_env = 210.
Proof.
  unfold Spec.max_field, Spec.max_field_from_chart, chart_width_cm; simpl.
  destruct (Req_dec_T 0.1 0); [lra |].
  unfold Rmin. destruct (Rle_dec 300 (210 / 10 / 0.1)); lra.
Qed.

Lemma default_range_ordered : min_mm default_range <= max_mm default_range.
Proof.
  simpl. rewrite max_field_default_env. apply Rmin_glb; lra.
Qed.

Lemma run_default :
  run default_env [default_camera] =
  Ok ([default_range],
      CommonRange (min_mm default_range) (max_mm default_range)).
Proof.
  unfold run. simpl. rewrite (default_camera_range default_env default_env_valid).
  simpl. fold default_range.
  unfold intersection, lower_mm, upper_mm. simpl.
  destruct (Rle_dec _ _) as [H | H]; [reflexivity |].
  destruct H. exact default_range_ordered.
Qed.

Lemma camera_range_name (env : Environment) (cam : CameraInput) (r : CameraRange) :
  camera_range env cam = Ok r -> cam_name r = name cam.
Proof.
  unfold camera_range. intros H.
  apply bind_Ok_inv in H as (s & _ & H).
  apply bind_Ok_inv in H as (l & _ & H).
  apply bind_Ok_inv in H as (lo & _ & H).
  apply bind_Ok_inv in H as (hi & _ & H).
  injection H as <-. reflexivity.
Qed.

Lemma run_lists_every_camera_aux
  (env : Environment) (inputs : list CameraInput)
  (cameras : list CameraRange) (o : Outcome) :
  run env inputs = Ok (cameras, o) ->
  Forall2 (fun cam r => camera_range env cam = Ok r) inputs cameras /\
  intersection cameras = Ok o.
Proof.
  unfold run. intros H.
  apply bind_Ok_inv in H as (cs & Hcs & H).
  apply bind_Ok_inv in H as (o' & Ho & H).
  injection H as <- <-.
  apply mapM_Ok_inv in Hcs. auto.
Qed.

(** The script lists one range per camera, in the order entered and under
    the camera's own name, and so does the display. *)
Theorem run_lists_every_camera
  (env : Environment) (inputs : list CameraInput)
  (cameras : list CameraRange) (o : Outcome) :
  run env inputs = Ok (cameras, o) ->
  map cam_name cameras = map name inputs /\
  map shown_name (results cameras) = map name inputs /\
  List.length (results cameras) = List.length inputs /\
  Forall2 (fun cam r => camera_range env cam = Ok r) inputs cameras /\
  intersection cameras = Ok o.
Proof.
  unfold run. intros H.
  apply bind_Ok_inv in H as (cs & Hcs & H).
  apply bind_Ok_inv in H as (o' & Ho & H).
  injection H as <- <-.
  apply mapM_Ok_inv in Hcs.
  assert (Hnames : map cam_name cs = map name inputs).
  { clear Ho. induction Hcs as [| cam r inputs' cs' Hr _ IH]; [reflexivity |].
    simpl. rewrite IH. f_equal. now apply (camera_range_name env). }
  split; [exact Hnames |].
  split; [unfold results; rewrite map_map; exact Hnames |].
  split.
  - unfold results. rewrite length_map.
    rewrite <- (length_map cam_name), Hnames. apply length_map.
  - split; assumption.
Qed.

Lemma run_lists_every_camera_default :
  map cam_name [default_range] = map name [default_camera] /\
  map shown_name (results [default_range]) = map name [default_camera] /\
  List.length (results [default_range]) = List.length [default_camera] /\
  Forall2 (fun cam r => camera_range default_env cam = Ok r)
          [default_camera] [default_range] /\
  intersection [default_range] =
  Ok (CommonRange (min_mm default_range) (max_mm default_range)).
Proof.
  apply (run_lists_every_camera default_env [default_camera] [default_range]
           (CommonRange (min_mm default_range) (max_mm default_range))).
  exact run_default.
Defined.

(** ** Bounds that every returned range keeps *)

Lemma Forall2_In_r {A B : Type} (P : A -> B -> Prop) (l : list A) (l' : list B) (b : B) :
  Forall2 P l l' -> In b l' -> exists a, In a l /\ P a b.
Proof.
  induction 1 as [| a b' l l' Hab _ IH]; intros Hin; [destruct Hin |].
  destruct Hin as [<- | Hin].
  - exists a. split; [now left | exact Hab].
  - destruct (IH Hin) as (a' & Ha' & HP). exists a'. split; [now right | exact HP].
Qed.

Lemma intersection_inv (cameras : list CameraRange) (lower upper : R) :
  intersection cameras = Ok (CommonRange lower upper) ->
  lower_mm cameras = Ok lower /\ upper_mm cameras = Ok upper /\ lower <= upper.
Proof.
  unfold intersection. intros H.
  apply bind_Ok_inv in H as (lo & Hlo & H).
  apply bind_Ok_inv in H as (up & Hup & H).
  destruct (Rle_dec lo up) as [Hle | Hgt]; [| discriminate].
  injection H as <- <-. auto.
Qed.

Lemma max_dist_mm_le_room (env : Environment) (sw f d : R) :
  max_dist_mm env sw f = Ok d -> d <= max_room_dist_cm env * 10.
Proof.
  unfold max_dist_mm. intros H. apply bind_Ok_inv in H as (u & _ & H).
  injection H as <-. rewrite min2_Rmin. apply Rmin_r.
Qed.

(** Whatever the inputs, no far bound that the script returns exceeds the
    room distance, and neither does the upper end of a reported common
    range; the same holds of the centimetres handed to the display. *)
Theorem run_within_room
  (env : Environment) (inputs : list CameraInput)
  (cameras : list CameraRange) (o : Outcome) :
  run env inputs = Ok (cameras, o) ->
  (forall r, In r cameras ->
     max_mm r <= max_room_dist_cm env * 10 /\
     shown_cm (max_mm r) <= max_room_dist_cm env) /\
  (forall lower upper, o = CommonRange lower upper ->
     upper <= max_room_dist_cm env * 10 /\
     message o = Success (shown_cm lower) (shown_cm upper) /\
     shown_cm upper <= max_room_dist_cm env).
Proof.
  intros Hrun.
  destruct (run_lists_every_camera_aux env inputs cameras o Hrun) as [Hall Ho].
  assert (Hcam : forall r, In r cameras -> max_mm r <= max_room_dist_cm env * 10).
  { intros r Hr. destruct (Forall2_In_r _ _ _ r Hall Hr) as (cam & _ & Hcr).
    apply camera_range_inv in Hcr as (s & l & _ & _ & _ & Hhi).
    now apply max_dist_mm_le_room in Hhi. }
  split.
  - intros r Hr. pose proof (Hcam r Hr). unfold shown_cm. split; lra.
  - intros lower upper ->.
    apply intersection_inv in Ho as (_ & Hup & _).
    unfold upper_mm in Hup. apply min_Ok_inv in Hup as (_ & Hin & _).
    apply in_map_iff in Hin as (r & <- & Hr).
    pose proof (Hcam r Hr). unfold shown_cm. repeat split; try reflexivity; lra.
Qed.

Lemma run_within_room_default :
  (forall r, In r [default_range] ->
     max_mm r <= max_room_dist_cm default_env * 10 /\
     shown_cm (max_mm r) <= max_room_dist_cm default_env) /\
  (forall lower upper,
     CommonRange (min_mm default_range) (max_mm default_range) =
     CommonRange lower upper ->
     upper <= max_room_dist_cm default_env * 10 /\
     message (CommonRange (min_mm default_range) (max_mm default_range)) =
     Success (shown_cm lower) (shown_cm upper) /\
     shown_cm upper <= max_room_dist_cm default_env).
Proof.
  apply (run_within_room default_env [default_camera] [default_range]
           (CommonRange (min_mm default_range) (max_mm default_range))).
  exact run_default.
Defined.




(** ** Geometry of the normalised sensor *)

Lemma hypot_sq (x y : R) : Py.hypot x y * Py.hypot x y = x * x + y * y.
Proof. unfold Py.hypot. apply sqrt_sqrt. nra. Qed.

Lemma hypot_ge_abs_l (x y : R) : Rabs x <= Py.hypot x y.
Proof.
  unfold Py.hypot. rewrite <- sqrt_Rsqr_abs. apply sqrt_le_1_alt.
  unfold Rsqr. nra.
Qed.

Lemma hypot_ge_abs_r (x y : R) : Rabs y <= Py.hypot x y.
Proof.
  unfold Py.hypot. rewrite <- sqrt_Rsqr_abs. apply sqrt_le_1_alt.
  unfold Rsqr. nra.
Qed.

(** Whichever way the sensor is entered, the normalised sensor has square
    pixels of the one pitch in both directions, so its height is to its
    width as the vertical pixel count is to the horizontal one, and its
    diagonal is the hypotenuse of width and height. *)
Theorem sensor_geometry (h v : Z) (mode : SensorMode) :
  (1 <= h)%Z ->
  exists s,
    sensor h v mode = Ok s /\
    sensor_width_mm s * 1000 = IZR h * pixel_size_um s /\
    sensor_height_mm s * 1000 = IZR v * pixel_size_um s /\
    sensor_height_mm s * IZR h = sensor_width_mm s * IZR v /\
    sensor_diag_mm s * sensor_diag_mm s =
      sensor_width_mm s * sensor_width_mm s +
      sensor_height_mm s * sensor_height_mm s /\
    Rabs (sensor_width_mm s) <= sensor_diag_mm s /\
    Rabs (sensor_height_mm s) <= sensor_diag_mm s.
Proof.
  intros Hh. pose proof (IZR_pos_nonzero h Hh) as Hh0.
  destruct mode as [sw | ps]; eexists;
    (split; [first [now apply sensor_width_mode | apply sensor_pixel_mode] |]);
    cbn [sensor_width_mm pixel_size_um sensor_height_mm sensor_diag_mm];
    (split; [field; assumption |]); (split; [field; assumption |]);
    (split; [field; assumption |]);
    (split; [apply hypot_sq |]);
    (split; [apply hypot_ge_abs_l | apply hypot_ge_abs_r]).
Qed.

Lemma sensor_geometry_default :
  exists s,
    sensor 3848 2160 (SensorWidthMM 7.696) = Ok s /\
    sensor_width_mm s * 1000 = 3848 * pixel_size_um s /\
    sensor_height_mm s * 1000 = 2160 * pixel_size_um s /\
    sensor_height_mm s * 3848 = sensor_width_mm s * 2160 /\
    sensor_diag_mm s * sensor_diag_mm s =
      sensor_width_mm s * sensor_width_mm s +
      sensor_height_mm s * sensor_height_mm s /\
    Rabs (sensor_width_mm s) <= sensor_diag_mm s /\
    Rabs (sensor_height_mm s) <= sensor_diag_mm s.
Proof.
  apply (sensor_geometry 3848 2160 (SensorWidthMM 7.696)). lia.
Defined.

(** ** The near bound in terms of the pixel pitch *)

Lemma near_bound_ok (cam : CameraInput) (s : Sensor) (l : Lens) (d : R) :
  sensor (h_pixels cam) (v_pixels cam) (sensor_mode cam) = Ok s ->
  lens (sensor_diag_mm s) (lens_mode cam) = Ok l ->
  min_dist_mm (h_pixels cam) (sensor_width_mm s) (focal_length_mm l) = Ok d ->
  near_bound cam = Ok d.
Proof.
  intros Hs Hl Hd. unfold near_bound. rewrite Hs; simpl. rewrite Hl; simpl. exact Hd.
Qed.

(** The horizontal pixel count cancels out of the near bound: with a pitch
    that is not zero the magnification is [pitch * 55 / 10000] whichever way
    the sensor is entered, so a camera entered by pitch and focal length has
    the near bound [fl / (pitch * 55 / 10000) + fl] at every resolution. *)
Theorem near_bound_from_pitch (h v : Z) (mode : SensorMode) (ps fl f : R) :
  (1 <= h)%Z -> ps <> 0 ->
  (forall s, sensor h v mode = Ok s -> pixel_size_um s <> 0 ->
     min_dist_mm h (sensor_width_mm s) f =
     Ok (f / (pixel_size_um s * 55 / 10000) + f)) /\
  near_bound (pitch_camera h v ps fl) = Ok (fl / (ps * 55 / 10000) + fl).
Proof.
  intros Hh Hps. pose proof (IZR_pos_nonzero h Hh) as Hh0.
  pose proof (hfov_min_mm_pos h Hh) as Hmin.
  assert (Hgen : forall s, sensor h v mode = Ok s -> pixel_size_um s <> 0 ->
            min_dist_mm h (sensor_width_mm s) f =
            Ok (f / (pixel_size_um s * 55 / 10000) + f)).
  { intros s Hs Hp.
    assert (Hw : sensor_width_mm s * 1000 = IZR h * pixel_size_um s).
    { destruct mode as [sw | ps'].
      - rewrite sensor_width_mode in Hs by assumption. injection Hs as <-.
        cbn [sensor_width_mm pixel_size_um]. field. assumption.
      - rewrite sensor_pixel_mode in Hs. injection Hs as <-.
        cbn [sensor_width_mm pixel_size_um]. field. }
    assert (Hmag : sensor_width_mm s / hfov_min_mm h = pixel_size_um s * 55 / 10000).
    { replace (sensor_width_mm s) with (IZR h * pixel_size_um s / 1000) by lra.
      unfold hfov_min_mm, hfov_min_cm, PIXELS_PER_CM. field. assumption. }
    rewrite min_dist_mm_nonzero; [now rewrite Hmag | assumption |].
    rewrite Hmag. intros Hz. apply Hp. lra. }
  split; [exact Hgen |].
  destruct (lens_focal_mode_total
              (Py.hypot (IZR h * ps / 1000) (IZR v * ps / 1000)) fl) as [dfov Hl].
  apply (near_bound_ok (pitch_camera h v ps fl) _ _ _ (sensor_pixel_mode h v ps) Hl).
  cbn [h_pixels pitch_camera sensor_width_mm focal_length_mm].
  assert (Hmag : IZR h * ps / 1000 / hfov_min_mm h = ps * 55 / 10000).
  { unfold hfov_min_mm, hfov_min_cm, PIXELS_PER_CM. field. assumption. }
  rewrite min_dist_mm_nonzero; [now rewrite Hmag | assumption |].
  rewrite Hmag. intros Hz. apply Hps. lra.
Qed.

Lemma near_bound_from_pitch_example :
  near_bound (pitch_camera 1920 1080 2 3) = Ok (3 / (2 * 55 / 10000) + 3) /\
  near_bound (pitch_camera 3848 2160 2 3) = Ok (3 / (2 * 55 / 10000) + 3).
Proof.
  split.
  - apply (near_bound_from_pitch 1920 1080 (PixelSizeUM 2) 2 3 3); [lia | lra].
  - apply (near_bound_from_pitch 3848 2160 (PixelSizeUM 2) 2 3 3); [lia | lra].
Defined.

(** ** The lens modes, the other way round *)

Lemma degrees_radians (x : R) : Py.degrees (2 * Py.radians (x / 2)) = x.
Proof. unfold Py.degrees, Py.radians. field. apply PI_neq0. Qed.

Lemma radians_half_first_quadrant (dfov : R) :
  0 < dfov < 180 -> 0 < Py.radians (dfov / 2) < PI / 2.
Proof.
  intros [Hlo Hhi]. pose proof PI_RGT_0 as Hpi. unfold Py.radians. nra.
Qed.

(** A sensor width entered directly gives a pitch that, entered as the
    pitch, gives back the same sensor.  A field of view strictly between 0
    and 180 degrees, on a sensor of positive diagonal, gives a positive focal
    length that, entered as the focal length, gives back the same lens. *)
Theorem normalizer_round_trip_back (h v : Z) (sw diag dfov : R) :
  (1 <= h)%Z -> 0 < diag -> 0 < dfov < 180 ->
  (exists s,
     sensor h v (SensorWidthMM sw) = Ok s /\
     sensor_width_mm s = sw /\
     sensor h v (PixelSizeUM (pixel_size_um s)) = Ok s) /\
  (exists l,
     lens diag (DiagonalFOVDeg dfov) = Ok l /\
     dfov_deg l = dfov /\
     0 < focal_length_mm l /\
     lens diag (FocalLengthMM (focal_length_mm l)) = Ok l).
Proof.
  intros Hh Hdiag Hd. pose proof (IZR_pos_nonzero h Hh) as Hh0.
  split.
  - eexists. split; [now apply sensor_width_mode |].
    cbn [sensor_width_mm pixel_size_um]. split; [reflexivity |].
    rewrite sensor_pixel_mode.
    replace (IZR h * (sw / IZR h * 1000) / 1000) with sw by (field; assumption).
    reflexivity.
  - pose proof (radians_half_first_quadrant dfov Hd) as [Hx0 Hx1].
    pose proof (tan_gt_0 _ Hx0 Hx1) as Htan.
    assert (Hf : 0 < diag / 2 / tan (Py.radians (dfov / 2))).
    { apply Rdiv_lt_0_compat; lra. }
    eexists. split; [apply lens_fov_mode_nonzero; lra |].
    cbn [dfov_deg focal_length_mm]. split; [reflexivity |]. split; [exact Hf |].
    rewrite lens_focal_mode_nonzero by lra.
    replace (diag / 2 / (diag / 2 / tan (Py.radians (dfov / 2))))
      with (tan (Py.radians (dfov / 2))) by (field; lra).
    rewrite atan_tan by lra. now rewrite degrees_radians.
Qed.

Lemma normalizer_round_trip_back_default :
  (exists s,
     sensor 3848 2160 (SensorWidthMM 7.696) = Ok s /\
     sensor_width_mm s = 7.696 /\
     sensor 3848 2160 (PixelSizeUM (pixel_size_um s)) = Ok s) /\
  (exists l,
     lens 8 (DiagonalFOVDeg 72) = Ok l /\
     dfov_deg l = 72 /\
     0 < focal_length_mm l /\
     lens 8 (FocalLengthMM (focal_length_mm l)) = Ok l).
Proof.
  apply (normalizer_round_trip_back 3848 2160 7.696 8 72); [lia | lra | lra].
Defined.

(** ** The field of view derived from a focal length *)

(** On a sensor of positive diagonal a positive focal length gives a
    diagonal field of view strictly between 0 and 180 degrees, and a longer
    focal length gives a narrower one. *)
Theorem dfov_of_focal_length (diag fl1 fl2 : R) :
  0 < diag -> 0 < fl1 < fl2 ->
  exists l1 l2,
    lens diag (FocalLengthMM fl1) = Ok l1 /\
    lens diag (FocalLengthMM fl2) = Ok l2 /\
    0 < dfov_deg l2 < dfov_deg l1 /\ dfov_deg l1 < 180.
Proof.
  intros Hdiag [Hfl1 Hlt].
  exists {| focal_length_mm := fl1;
            dfov_deg := Py.degrees (2 * atan (diag / 2 / fl1)) |},
         {| focal_length_mm := fl2;
            dfov_deg := Py.degrees (2 * atan (diag / 2 / fl2)) |}.
  split; [apply lens_focal_mode_nonzero; lra |].
  split; [apply lens_focal_mode_nonzero; lra |].
  cbn [dfov_deg]. pose proof PI_RGT_0 as Hpi.
  assert (Hy2 : 0 < diag / 2 / fl2) by (apply Rdiv_lt_0_compat; lra).
  assert (Hy : diag / 2 / fl2 < diag / 2 / fl1).
  { unfold Rdiv. apply Rmult_lt_compat_l; [lra |].
    apply Rinv_lt_contravar; [nra | lra]. }
  pose proof (atan_pos _ Hy2) as Ha2.
  pose proof (atan_increasing _ _ Hy) as Ha.
  pose proof (atan_bound (diag / 2 / fl1)) as [_ Hb].
  assert (Hc : 0 < 180 / PI) by (apply Rdiv_lt_0_compat; lra).
  unfold Py.degrees. repeat split.
  - nra.
  - nra.
  - replace 180 with (PI * (180 / PI)) at 2 by (field; lra). nra.
Qed.

Lemma dfov_of_focal_length_example :
  exists l1 l2,
    lens 8 (FocalLengthMM 3) = Ok l1 /\
    lens 8 (FocalLengthMM 6) = Ok l2 /\
    0 < dfov_deg l2 < dfov_deg l1 /\ dfov_deg l1 < 180.
Proof.
  apply (dfov_of_focal_length 8 3 6); lra.
Defined.

(** ** The far bound against the environment *)

Lemma max_field_monotone (env1 env2 : Environment) :
  valid_env env1 -> valid_env env2 -> roomier env1 env2 ->
  Spec.max_field env1 <= Spec.max_field env2.
Proof.
  intros (Hw1 & _ & Hf1 & _) (Hw2 & _ & Hf2 & _) (Hwall & _ & Hchart & Hfrac).
  pose proof (chart_width_cm_pos env1) as Hc1.
  unfold Spec.max_field, Spec.max_field_from_chart.
  destruct (Req_dec_T (min_chart_fraction env1) 0) as [Hz1 | Hnz1];
    destruct (Req_dec_T (min_chart_fraction env2) 0) as [Hz2 | Hnz2].
  - exact Hwall.
  - lra.
  - eapply Rle_trans; [apply Rmin_l | exact Hwall].
  - apply Rmin_glb.
    + eapply Rle_trans; [apply Rmin_l | exact Hwall].
    + eapply Rle_trans; [apply Rmin_r |].
      assert (Hi : / min_chart_fraction env1 <= / min_chart_fraction env2).
      { apply Rinv_le_contravar; lra. }
      assert (Hi1 : 0 < / min_chart_fraction env1) by (apply Rinv_0_lt_compat; lra).
      unfold Rdiv. nra.
Qed.

(** For a camera with a positive sensor width and a focal length that is
    not negative, a wider wall, a deeper room, a wider chart or a smaller
    minimum chart fraction never brings the far bound closer. *)
Theorem max_dist_mm_monotone (env1 env2 : Environment) (sw f : R) :
  valid_env env1 -> valid_env env2 -> roomier env1 env2 ->
  0 < sw -> 0 <= f ->
  exists d1 d2,
    max_dist_mm env1 sw f = Ok d1 /\
    max_dist_mm env2 sw f = Ok d2 /\
    d1 <= d2.
Proof.
  intros Hv1 Hv2 Hroomier Hsw Hf.
  pose proof (max_field_monotone env1 env2 Hv1 Hv2 Hroomier) as Hfield.
  pose proof (max_field_pos env1 Hv1) as Hp1.
  pose proof (max_field_pos env2 Hv2) as Hp2.
  destruct Hroomier as (_ & Hroom & _ & _).
  assert (Hfar : forall env, valid_env env ->
            max_dist_mm env sw f =
            Ok (Rmin (f / sw * (Spec.max_field env * 10) + f)
                     (max_room_dist_cm env * 10))).
  { intros env Hv. pose proof (max_field_pos env Hv).
    apply max_dist_mm_cap. rewrite max_dist_uncapped_nonzero.
    - f_equal. unfold Spec.far_magnification. field. lra.
    - assumption.
    - rewrite far_magnification_zero_iff by assumption. lra. }
  do 2 eexists. split; [now apply Hfar |]. split; [now apply Hfar |].
  assert (Hk : 0 <= f / sw).
  { unfold Rdiv. apply Rinv_0_lt_compat in Hsw. nra. }
  apply Rmin_glb.
  - eapply Rle_trans; [apply Rmin_l | nra].
  - eapply Rle_trans; [apply Rmin_r | lra].
Qed.

Lemma default_roomier_than_full_frame : roomier full_frame_chart_env default_env.
Proof. unfold roomier, chart_width_cm; simpl. lra. Qed.

Lemma max_dist_mm_monotone_default :
  exists d1 d2,
    max_dist_mm full_frame_chart_env 7.696 3 = Ok d1 /\
    max_dist_mm default_env 7.696 3 = Ok d2 /\
    d1 <= d2.
Proof.
  apply (max_dist_mm_monotone full_frame_chart_env default_env 7.696 3).
  - exact full_frame_chart_env_valid.
  - exact default_env_valid.
  - exact default_roomier_than_full_frame.
  - lra.
  - lra.
Defined.

(** ** The chart presets *)

Lemma mapM_ext {A B : Type} (f g : A -> result B) (l : list A) :
  (forall a, f a = g a) -> mapM f l = mapM g l.
Proof.
  intros Hfg. induction l as [| a t IH]; simpl; [reflexivity |].
  now rewrite Hfg, IH.
Qed.

(** The chart enters the computation through its width alone: two presets
    of the same width, such as Letter and Legal, give the same run for every
    list of cameras. *)
Theorem chart_width_decides
  (env : Environment) (c1 c2 : ChartOption) (inputs : list CameraInput) :
  chart_width_mm_map c1 = chart_width_mm_map c2 ->
  run (set_chart_option env c1) inputs = run (set_chart_option env c2) inputs.
Proof.
  intros Hw. unfold run.
  rewrite (mapM_ext (camera_range (set_chart_option env c1))
                    (camera_range (set_chart_option env c2))); [reflexivity |].
  intros cam. unfold camera_range, max_dist_mm, max_dist_uncapped_mm, mag_max,
    hfov_max_mm, hfov_max_cm, hfov_max_chart_cm, chart_width_cm.
  cbn [set_chart_option chart_option wall_width_cm max_room_dist_cm min_chart_fraction].
  now rewrite Hw.
Qed.

Lemma chart_width_decides_letter_legal :
  run (set_chart_option default_env Letter) [default_camera] =
  run (set_chart_option default_env Legal) [default_camera].
Proof.
  apply (chart_width_decides default_env Letter Legal [default_camera]).
  reflexivity.
Defined.

(** ** Line 89 in binary64 *)

Import Floats.

Lemma radians_half_min_positive :
  Binary64.radians (PrimFloat.div Binary64.min_positive 2%float) = 0%float.
Proof. vm_compute. reflexivity. Qed.

(** C7 fails on the code.  The angle [5e-324] is the smallest positive
    binary64 number: it is not zero, so the test of line 89 lets it through;
    its half rounds to zero, [math.radians] keeps the zero, and with a
    tangent that maps zero to zero the divisor is zero: the division raises
    [ZeroDivisionError], whatever the sensor diagonal. *)
Theorem focal_length_mm_raises_on_smallest_angle
  (tan : float -> float) (sensor_diag_mm : float) :
  tan 0%float = 0%float ->
  PrimFloat.ltb 0%float Binary64.min_positive = true /\
  Binary64.truthy Binary64.min_positive = true /\
  Binary64.focal_length_mm tan sensor_diag_mm Binary64.min_positive =
  Raise ZeroDivisionError.
Proof.
  intros Htan. split; [reflexivity |]. split; [reflexivity |].
  unfold Binary64.focal_length_mm.
  rewrite radians_half_min_positive, Htan.
  reflexivity.
Qed.

Lemma focal_length_mm_raises_on_smallest_angle_identity :
  Binary64.focal_length_mm (fun x => x) 0x1.1a6b213e2db78p+3%float
                           Binary64.min_positive =
  Raise ZeroDivisionError.
Proof.
  apply (focal_length_mm_raises_on_smallest_angle (fun x => x)).
  reflexivity.
Defined.

(** In binary64 the pitch comes back only up to rounding: three pixels of
    pitch 1.4 um give back 1.3999999999999995 um. *)
Remark pixel_size_um_round_trip_rounds :
  Binary64.pixel_size_um 3
    (Binary64.sensor_width_mm 3 0x1.6666666666666p+0) =
  Ok 0x1.6666666666664p+0%float.
Proof. vm_compute. reflexivity. Qed.
